(** * A denoising auto-encoder and its training driver (latent/dA.py)

    The development has two halves.

    - The numeric half embeds the [dA] class over exact real numbers: arrays
      are row-major lists, the symbolic Theano nodes [tilde_x], [y], [z], [L],
      [L1_hidden_penalty] and [cost] are functions of the object and of the
      batch they are evaluated on, and the random streams are explicit
      cursors into a stream of raw draws.
    - The driver half embeds [train], [plot] and [main] as functions that
      return a Python outcome (a value or a raised exception), the printed
      lines, the optimizer's step counter and the flat parameter vector.

    The numeric statements are about exact real arithmetic.  Rounding is
    modelled only for the sigmoid on binary64, where the format alone fixes
    the result ([sigmoid64]). *)

From Stdlib Require Import Floats String Ascii Reals Lra Lia ZArith Bool List.
Import ListNotations.

Set Warnings "-abstract-large-number".

(* ------------------------------------------------------------------ *)
(** ** Python outcomes *)

Inductive exn : Type :=
| ZeroDivisionError
| ValueError
| TypeError
| UnboundLocalError
| IOError.

Inductive result (A : Type) : Type :=
| Ok (a : A)
| Raise (e : exn).

Arguments Ok {A} a.
Arguments Raise {A} e.

Definition bind {A B : Type} (c : result A) (k : A -> result B) : result B :=
  match c with
  | Ok a => k a
  | Raise e => Raise e
  end.

Notation "x <- c ;; k" := (bind c (fun x => k))
  (at level 61, c at next level, right associativity).

(* ------------------------------------------------------------------ *)
(** ** Arrays *)

(** A one-dimensional array. *)
Abbreviation vector := (list R) (only parsing).

(** A two-dimensional array, stored row by row.  An array without rows
    records no width, so statements about shapes assume positive
    dimensions. *)
Abbreviation matrix := (list (list R)) (only parsing).

Section Arrays.
Local Open Scope R_scope.

Definition ncols (m : matrix) : nat := length (hd [] m).

(** [m.shape] *)
Definition shape (m : matrix) : nat * nat := (length m, ncols m).

Definition has_shape (r c : nat) (m : matrix) : Prop :=
  length m = r /\ Forall (fun row => length row = c) m.

Definition entry (m : matrix) (i k : nat) : R := nth k (nth i m []) 0.

Fixpoint map2 {A B C : Type} (f : A -> B -> C) (u : list A) (v : list B)
  : list C :=
  match u, v with
  | a :: u', b :: v' => f a b :: map2 f u' v'
  | _, _ => []
  end.

Definition col (j : nat) (m : matrix) : vector :=
  map (fun row => nth j row 0) m.

(** [m.T] *)
Definition transpose (m : matrix) : matrix :=
  map (fun j => col j m) (seq 0 (ncols m)).

(** [v.sum()] *)
Definition sum (v : vector) : R := fold_right Rplus 0 v.

(** [v.mean()] *)
Definition mean (v : vector) : R := sum v / INR (length v).

Definition dotp (u v : vector) : R := sum (map2 Rmult u v).

(** [T.dot(a, b)] *)
Definition dot (a b : matrix) : matrix :=
  map (fun row => map (fun j => dotp row (col j b)) (seq 0 (ncols b))) a.

(** [m + v], the vector broadcast over the rows. *)
Definition add_bias (m : matrix) (v : vector) : matrix :=
  map (fun row => map2 Rplus row v) m.

(** An elementwise function of one array. *)
Definition emap (f : R -> R) (m : matrix) : matrix := map (map f) m.

(** [a * b] and [a + b] on arrays of one shape. *)
Definition emul (a b : matrix) : matrix := map2 (map2 Rmult) a b.
Definition eadd (a b : matrix) : matrix := map2 (map2 Rplus) a b.

(** [T.sum(m, axis=1)] *)
Definition sum_axis1 (m : matrix) : vector := map sum m.

(** [m.mean(axis=0)] *)
Definition mean_axis0 (m : matrix) : vector :=
  map (fun j => mean (col j m)) (seq 0 (ncols m)).

(** [T.nnet.sigmoid] over the reals: the logistic function, strictly
    between 0 and 1.  Its evaluation in floatX can return exactly 0 or 1
    (see [sigmoid64]). *)
Definition sigmoid (t : R) : R := 1 / (1 + exp (- t)).

(** Sum of [f 0 .. f (n-1)], used to write the formulas of the
    specification. *)
Definition big_sum (n : nat) (f : nat -> R) : R := sum (map f (seq 0 n)).

(* ------------------------------------------------------------------ *)
(** ** Random sources

    A [numpy.random.RandomState] or a Theano [RandomStreams] is a cursor
    into a stream of raw integers.  One uniform sample takes the next raw
    integer modulo [2^53] and divides it by [2^53], as numpy's
    [random_sample] does with its 53 random bits, so a sample lies in
    [0, 1) whatever the stream holds. *)

Record rng : Type := mk_rng { raw : nat -> Z; pos : nat }.

Definition advance (g : rng) (n : nat) : rng := mk_rng (raw g) (pos g + n).

(** The [k]-th sample after the cursor. *)
Definition sample_at (g : rng) (k : nat) : R :=
  IZR (raw g (pos g + k) mod 2 ^ 53) / IZR (2 ^ 53).

(** An array of the given shape filled, row by row, with [f] of successive
    samples. *)
Definition draw (f : R -> R) (size : nat * nat) (g : rng) : matrix * rng :=
  let (r, c) := size in
  (map (fun i => map (fun j => f (sample_at g (i * c + j))) (seq 0 c))
       (seq 0 r),
   advance g (r * c)).

(** [rng.randint(high)] *)
Definition randint (g : rng) (high : Z) : Z * rng :=
  ((raw g (pos g) mod high)%Z, advance g 1).

(** [rng.uniform(low, high, size)] : [low + (high - low) * sample]. *)
Definition uniform (g : rng) (low high : R) (size : nat * nat)
  : matrix * rng :=
  draw (fun u => low + (high - low) * u) size g.

(** One trial of probability [p]: 1 when the sample falls below [p]. *)
Definition bernoulli (p : R) (u : R) : R := if Rlt_dec u p then 1 else 0.

(** [rng.binomial(size, n=1, p)], for a probability [p] between 0 and 1.
    The sampler rejects any other [p] with [ValueError]; that error path is
    not modelled, so statements about [get_corrupted_input] concern
    corruption levels between 0 and 1. *)
Definition binomial (g : rng) (size : nat * nat) (p : R) : matrix * rng :=
  draw (bernoulli p) size g.

(* ------------------------------------------------------------------ *)
(** ** The class [dA] *)

(** The object after [__init__].  [W], [b] and [b_prime] are the three
    shared variables; [corruption_level] and [sparsity_lambda] are the
    constructor arguments captured by the symbolic graph.  There is no field
    for the decode matrix. *)
Record dA : Type := mk_dA {
  n_visible : Z;
  n_hidden : Z;
  W : matrix;
  b : vector;
  b_prime : vector;
  theano_rng : rng;
  corruption_level : R;
  sparsity_lambda : R
}.

(** [self.W_prime = self.W.T] : a symbolic transpose of the shared [W]. *)
Definition W_prime (self : dA) : matrix := transpose (W self).

(** An optimizer update of the shared weight matrix. *)
Definition set_W (self : dA) (w : matrix) : dA :=
  mk_dA (n_visible self) (n_hidden self) w (b self) (b_prime self)
        (theano_rng self) (corruption_level self) (sparsity_lambda self).

(** A function evaluation leaves the stream cursor behind the draws. *)
Definition set_theano_rng (self : dA) (g : rng) : dA :=
  mk_dA (n_visible self) (n_hidden self) (W self) (b self) (b_prime self)
        g (corruption_level self) (sparsity_lambda self).

Definition get_corrupted_input (self : dA) (input : matrix)
  (corruption_level : R) : matrix * rng :=
  let (mask, g) :=
    binomial (theano_rng self) (shape input) (1 - corruption_level) in
  (emul mask input, g).

Definition get_hidden_values (self : dA) (input : matrix) : matrix :=
  emap sigmoid (add_bias (dot input (W self)) (b self)).

Definition get_reconstructed_input (self : dA) (hidden : matrix) : matrix :=
  emap sigmoid (add_bias (dot hidden (W_prime self)) (b_prime self)).

(** The symbolic nodes built at the end of [__init__], as functions of the
    batch [x] bound to the input variable. *)
Definition tilde_x (self : dA) (x : matrix) : matrix :=
  fst (get_corrupted_input self x (corruption_level self)).

Definition y (self : dA) (x : matrix) : matrix :=
  get_hidden_values self (tilde_x self x).

Definition z (self : dA) (x : matrix) : matrix :=
  get_reconstructed_input self (y self x).

Definition L (self : dA) (x : matrix) : vector :=
  map Ropp
      (sum_axis1
         (eadd (emul x (emap ln (z self x)))
               (emul (emap (fun v => 1 - v) x)
                     (emap ln (emap (fun v => 1 - v) (z self x)))))).

Definition L1_hidden_penalty (self : dA) (x : matrix) : R :=
  sparsity_lambda self * sum (mean_axis0 (y self x)).

Definition cost (self : dA) (x : matrix) : R :=
  mean (L self x) + L1_hidden_penalty self x.

(** [theano.function([x], da.cost)] : the value and the object with its
    stream advanced by the mask that was drawn. *)
Definition loss (self : dA) (x : matrix) : R * dA :=
  (cost self x,
   set_theano_rng self
     (snd (get_corrupted_input self x (corruption_level self)))).

(** [np.zeros(n)] *)
Definition zeros (n : Z) : result vector :=
  if (n <? 0)%Z then Raise ValueError else Ok (repeat 0 (Z.to_nat n)).

Section Init.

(** [RandomStreams(seed)] : the stream a seed selects. *)
Variable RandomStreams : Z -> rng.

(** The bound [4 * np.sqrt(6. / (n_hidden + n_visible))]. *)
Definition init_bound (n_visible n_hidden : Z) : R :=
  4 * sqrt (6 / IZR (n_hidden + n_visible)).

(** [initial_W]: the float division raises on a zero sum, the sampler on a
    negative dimension. *)
Definition initial_W (numpy_rng : rng) (n_visible n_hidden : Z)
  : result (matrix * rng) :=
  if (n_hidden + n_visible =? 0)%Z then Raise ZeroDivisionError
  else if ((n_visible <? 0) || (n_hidden <? 0))%Z then Raise ValueError
  else Ok (uniform numpy_rng
                   (- init_bound n_visible n_hidden)
                   (init_bound n_visible n_hidden)
                   (Z.to_nat n_visible, Z.to_nat n_hidden)).

(** [dA.__init__].  The arguments [W], [bhid] and [bvis] are [None] or a
    shared variable, which is truthy.  The result carries the advanced
    [numpy_rng]. *)
Definition init (numpy_rng : rng) (theano_rng : option rng)
  (n_visible n_hidden : Z) (W : option matrix) (bhid bvis : option vector)
  (corruption_level sparsity_lambda : R) : result (dA * rng) :=
  let '(theano_rng, numpy_rng) :=
    match theano_rng with
    | Some t => (t, numpy_rng)
    | None =>
        let (seed, g) := randint numpy_rng (2 ^ 30) in (RandomStreams seed, g)
    end in
  drawn <-
    match W with
    | Some w => Ok (w, numpy_rng)
    | None => initial_W numpy_rng n_visible n_hidden
    end ;;
  let '(W, numpy_rng) := drawn in
  bvis <- match bvis with Some v => Ok v | None => zeros n_visible end ;;
  bhid <- match bhid with Some v => Ok v | None => zeros n_hidden end ;;
  Ok (mk_dA n_visible n_hidden W bhid bvis theano_rng
            corruption_level sparsity_lambda,
      numpy_rng).

End Init.

(* ------------------------------------------------------------------ *)
(** ** The cost as the specification writes it *)

(** [L_i = - sum_k (x_ik log z_ik + (1 - x_ik) log (1 - z_ik))] *)
Definition spec_L (nv : nat) (x zz : matrix) (i : nat) : R :=
  - big_sum nv (fun k =>
      entry x i k * ln (entry zz i k)
      + (1 - entry x i k) * ln (1 - entry zz i k)).

(** [P = lambda * sum_h mean_i y_ih] *)
Definition spec_penalty (m nh : nat) (lambda : R) (yy : matrix) : R :=
  lambda * big_sum nh (fun h => big_sum m (fun i => entry yy i h) / INR m).

(** [cost = mean_i L_i + P] *)
Definition spec_cost (m nv nh : nat) (lambda : R) (x yy zz : matrix) : R :=
  big_sum m (spec_L nv x zz) / INR m + spec_penalty m nh lambda yy.

(** The inputs on which the graph evaluates: an [m] by [nv] batch, an [nv]
    by [nh] weight matrix, biases of lengths [nh] and [nv], and no empty
    dimension (Theano rejects mismatched shapes, and the mean over an empty
    batch is undefined). *)
Definition well_shaped (m nv nh : nat) (self : dA) (x : matrix) : Prop :=
  (0 < m)%nat /\ (0 < nv)%nat /\ (0 < nh)%nat
  /\ has_shape m nv x
  /\ has_shape nv nh (W self)
  /\ length (b self) = nh
  /\ length (b_prime self) = nv.

(* ------------------------------------------------------------------ *)
(** ** The flat parameter vector and its views *)

(** [a.flatten()] : the rows one after the other. *)
Definition flatten (m : matrix) : vector := concat m.

(** [v.reshape((r, c))] : [r] rows of [c] consecutive entries. *)
Fixpoint reshape (r c : nat) (v : vector) : matrix :=
  match r with
  | O => []
  | S r' => firstn c v :: reshape r' c (skipn c v)
  end.

(** The views [Weights, bias_hidden, bias_visible] that the template
    [[(nv, nh), nh, nv]] of [train] cuts out of [flat]: the arrays follow
    one another in the order of the template, each in row-major order. *)
Definition views (nv nh : nat) (flat : vector) : matrix * vector * vector :=
  (reshape nv nh (firstn (nv * nh) flat),
   firstn nh (skipn (nv * nh) flat),
   firstn nv (skipn (nv * nh + nh) flat)).

Section FlatGradient.

(** [g_params_da], the compiled gradient of the cost with respect to
    [W], [b] and [b_prime], in that order. *)
Variable g_params_da : matrix -> matrix * vector * vector.

(** [d_loss_wrt_pars], local to [train]: the three gradients laid out as
    one vector.  The arguments [parameters] and [targets] are not read. *)
Definition d_loss_wrt_pars (parameters : vector) (inputs : matrix)
  (targets : vector) : vector :=
  let '(g_W, g_b_hidden, g_b_vis) := g_params_da inputs in
  flatten g_W ++ g_b_hidden ++ g_b_vis.

End FlatGradient.

End Arrays.

(* ------------------------------------------------------------------ *)
(** ** The sigmoid in binary64 *)

Section Binary64.
Local Open Scope float_scope.

(** [exp] on binary64 (the default floatX), where the format alone fixes
    the result: [e^t] is below half the smallest subnormal for [t < -746]
    and rounds to zero, and is above the largest finite number for
    [t > 710] and overflows to infinity.  In between the result is the
    approximation of the C library, which is not modelled. *)
Definition exp64 (t : float) : option float :=
  if t <? -746 then Some 0
  else if 710 <? t then Some infinity
  else None.

(** [1 / (1 + exp(-t))] evaluated in binary64. *)
Definition sigmoid64 (t : float) : option float :=
  match exp64 (- t) with
  | Some e => Some (1 / (1 + e))
  | None => None
  end.

(** [get_hidden_values] and [get_reconstructed_input] in binary64 for one
    example of a model with one visible and one hidden unit, whose decode
    matrix is the single weight itself. *)
Definition hidden_unit64 (x w b : float) : option float :=
  sigmoid64 (x * w + b).

Definition reconstructed_unit64 (y w b_prime : float) : option float :=
  sigmoid64 (y * w + b_prime).

End Binary64.

(* ------------------------------------------------------------------ *)
(** ** Python string formatting *)

(** [fmt % args] for string arguments.  A conversion [%s] takes the next
    argument, [%%] is a percent sign, and a format that ends inside a
    conversion raises [ValueError] (incomplete format).  The numeric
    conversions reject a string; flags and widths do not occur in the
    formats of this program and are treated as unsupported characters. *)
Fixpoint py_format (fmt : string) (args : list string) : result string :=
  match fmt with
  | EmptyString =>
      match args with
      | [] => Ok EmptyString
      | _ :: _ => Raise TypeError
      end
  | String c rest =>
      if Ascii.eqb c "%" then
        match rest with
        | EmptyString => Raise ValueError
        | String d rest' =>
            if Ascii.eqb d "s" then
              match args with
              | [] => Raise TypeError
              | a :: args' => r <- py_format rest' args' ;; Ok (a ++ r)%string
              end
            else if Ascii.eqb d "%" then
              r <- py_format rest' args ;; Ok (String "%" r)
            else if Ascii.eqb d "d" || Ascii.eqb d "f" then Raise TypeError
            else Raise ValueError
        end
      else r <- py_format rest args ;; Ok (String c r)
  end.

(* ------------------------------------------------------------------ *)
(** ** The training driver *)

(** What a run leaves behind, in order. *)
Inductive event : Type :=
| Print (line : string)
| PrintBatches (n_train_batches batch_size : Z)
    (* '... training on %d minibatches of size %d each' *)
| PrintEpoch (epoch : Z)
    (* 'training epoch %d, cost %f ...' with the cost of the whole split *)
| PrintRanFor
    (* the timing line on stderr *)
| PickleDump
    (* autoencoder.pkl written *)
| SaveImage (file : string).

Inductive pyval : Type :=
| PyInt (n : Z)
| PyNone.

Inductive optimizer_kind : Type :=
| GradientDescent
| RmsProp.

(** The keyword arguments of [train] that reach its control flow.  The
    remaining ones ([learning_rate], [n_hidden], [sparsity_lambda],
    [corruption_level]) only parameterise the numeric update. *)
Record config : Type := mk_config {
  training_epochs : Z;
  batch_size : option Z;
  optimizer : string
}.

(** The defaults in the signature of [train]. *)
Definition default_config : config :=
  mk_config 15%Z (Some 600%Z) "rmsprop".

Record run (P A : Type) : Type := mk_run {
  outcome : result A;
  log : list event;
  n_iter : Z;        (* [opt.n_iter]: updates performed so far *)
  wrt : P             (* [flat]: the parameters the optimizer updates *)
}.

Arguments mk_run {P A} outcome log n_iter wrt.
Arguments outcome {P A} r.
Arguments log {P A} r.
Arguments n_iter {P A} r.
Arguments wrt {P A} r.

Section Driver.
Local Open Scope Z_scope.

(** The flat parameter vector, its value after [randomize_normal], and the
    update an optimizer applies at a given iteration.  The argument stream
    ([iter_minibatches] or [itertools.repeat]) supplies a batch whenever the
    optimizer asks for one. *)
Variable P : Type.
Variable flat0 : P.
Variable update : optimizer_kind -> P -> Z -> P.

(** [for info in opt: ...].  One iteration asks the optimizer for its next
    step, which updates the parameters and increments [n_iter] before the
    loop body sees [info].  [n_train_batches] is [None] when the name was
    never bound.  The result is [None] when the fuel runs out. *)
Fixpoint training_loop (fuel : nat) (kind : optimizer_kind)
  (n_train_batches : option Z) (training_epochs : Z)
  (n_iter : Z) (wrt : P) (log : list event) : option (run P unit) :=
  match fuel with
  | O => None
  | S fuel' =>
      let wrt := update kind wrt n_iter in
      let n_iter := n_iter + 1 in
      let iter := n_iter - 1 in
      match n_train_batches with
      | None => Some (mk_run (Raise UnboundLocalError) log n_iter wrt)
      | Some n_train_batches =>
          if n_train_batches =? 0
          then Some (mk_run (Raise ZeroDivisionError) log n_iter wrt)
          else
            let epoch := iter / n_train_batches + 1 in
            let log :=
              if (iter + 1) mod n_train_batches =? 0
              then (log ++ [PrintEpoch epoch])%list
              else log in
            if epoch >=? training_epochs
            then Some (mk_run (Ok tt) log n_iter wrt)
            else training_loop fuel' kind (Some n_train_batches)
                               training_epochs n_iter wrt log
      end
  end.

(** The branch on [batch_size]: the binding of [n_train_batches], if any,
    and the line printed. *)
Definition plan_batches (train_rows : nat) (batch_size : option Z)
  : result (option Z * event) :=
  match batch_size with
  | None => Ok (None, Print "... training on the full train set")
  | Some batch_size =>
      if batch_size =? 0 then Raise ZeroDivisionError
      else
        let n_train_batches := Z.of_nat train_rows / batch_size in
        Ok (Some n_train_batches, PrintBatches n_train_batches batch_size)
  end.

(** The branch on [optimizer]. *)
Definition choose_optimizer (optimizer : string)
  : option (optimizer_kind * event) :=
  if String.eqb optimizer "gd"
  then Some (GradientDescent, Print "... using gradient descent")
  else if String.eqb optimizer "rmsprop"
  then Some (RmsProp, Print "... using rmsprop")
  else None.

(** [train], on a training split of [train_rows] rows. *)
Definition train (fuel : nat) (train_rows : nat) (cfg : config)
  : option (run P pyval) :=
  let lines := [Print "... building the model"] in
  match plan_batches train_rows (batch_size cfg) with
  | Raise e => Some (mk_run (Raise e) lines 0 flat0)
  | Ok (n_train_batches, line) =>
      let lines := (lines ++ [line])%list in
      match choose_optimizer (optimizer cfg) with
      | None =>
          Some (mk_run (Ok (PyInt (-1)))
                       (lines ++ [Print "unknown optimizer"])%list 0 flat0)
      | Some (kind, line) =>
          match training_loop fuel kind n_train_batches
                              (training_epochs cfg) 0 flat0
                              (lines ++ [line])%list with
          | None => None
          | Some r =>
              match outcome r with
              | Raise e => Some (mk_run (Raise e) (log r) (n_iter r) (wrt r))
              | Ok _ =>
                  Some (mk_run (Ok (PyInt 1))
                               (log r ++ [PrintRanFor; PickleDump])%list
                               (n_iter r) (wrt r))
              end
          end
      end
  end.

(** [plot]: [pickled] tells whether [pickle.load(open(...))] returns the
    model.  When it does not, [plot] ends there with the exception of the
    load, whichever it is (a missing file, a file opened in text mode, a
    damaged pickle); the model records it as [IOError]. *)
Definition plot (pickled : bool) (element : string)
  : result pyval * list event :=
  if negb pickled then (Raise IOError, [])
  else if String.eqb element "reconstructions"
  then (Ok PyNone,
        [Print "... plot reconstructions"; SaveImage "autoencoderrec.png"])
  else if String.eqb element "repflds"
  then (Ok PyNone,
        [Print "... plot receptive fields";
         SaveImage "autoencoderfilter.png"])
  else
    match py_format "dot't know how to plot %" [element] with
    | Raise e => (Raise e, [])
    | Ok line =>
        (Ok (PyInt (-1)),
         [Print line; Print "either use 'reconstructions' or 'repflds'"])
    end.

(** [main(argv)] *)
Definition main (fuel : nat) (train_rows : nat) (pickled : bool)
  (argv : list string) : option (result pyval * list event) :=
  match argv with
  | [] => Some (Ok (PyInt (-1)), [Print "please call with at least 1 argument"])
  | command :: rest =>
      if String.eqb command "train" then
        match train fuel train_rows default_config with
        | None => None
        | Some r => Some (outcome r, log r)
        end
      else if String.eqb command "plot" then
        match rest with
        | [] =>
            Some (Ok (PyInt (-1)), [Print "please define what element to plot"])
        | element :: _ => Some (plot pickled element)
        end
      else
        match py_format "unknown command: %" [command] with
        | Raise e => Some (Raise e, [])
        | Ok line =>
            Some (Ok (PyInt (-1)),
                  [Print line; Print "either use 'train' or 'plot'"])
        end
  end.

(** The status [sys.exit] hands to the system: [None] is 0, an integer is
    taken modulo 256, and an exception that reaches the top level is 1. *)
Definition exit_status (r : result pyval) : Z :=
  match r with
  | Ok PyNone => 0
  | Ok (PyInt n) => n mod 256
  | Raise _ => 1
  end.

End Driver.

(** A stand-in optimizer for concrete runs: its parameter vector counts the
    updates applied to it. *)
Definition count_update (kind : optimizer_kind) (w : nat) (i : Z) : nat := S w.

Arguments training_loop {P} update fuel kind n_train_batches training_epochs
  n_iter wrt log.
Arguments train {P} flat0 update fuel train_rows cfg.
Arguments main {P} flat0 update fuel train_rows pickled argv.

Section Updates.
Local Open Scope Z_scope.

Variable P : Type.
Variable update : optimizer_kind -> P -> Z -> P.

(** The parameters after [count] successive steps of the optimizer, the
    first one taken at counter [k]. *)
Fixpoint apply_updates (kind : optimizer_kind) (w : P) (k : Z) (count : nat)
  : P :=
  match count with
  | O => w
  | S count' => apply_updates kind (update kind w k) (k + 1) count'
  end.

End Updates.

Arguments apply_updates {P} update kind w k count.

(* ================================================================== *)
(** * Properties of the numeric half *)

Section ArrayFacts.
Local Open Scope R_scope.

Lemma map2_length {A B C : Type} (f : A -> B -> C) (u : list A) (v : list B) :
  length u = length v -> length (map2 f u v) = length u.
Proof.
  revert v; induction u as [|a u IH]; intros [|b0 v]; simpl; try congruence.
  intros H; f_equal; apply IH; congruence.
Qed.

Lemma nth_map2 {A B C : Type} (f : A -> B -> C) (u : list A) (v : list B)
  (da : A) (db : B) (dc : C) (k : nat) :
  (k < length u)%nat -> (k < length v)%nat ->
  nth k (map2 f u v) dc = f (nth k u da) (nth k v db).
Proof.
  revert v k; induction u as [|a u IH]; intros [|b0 v] [|k]; simpl;
    try lia; auto.
  intros; apply IH; lia.
Qed.

(** Mapping over indices and reading position [k] back. *)
Lemma nth_map_seq {A : Type} (f : nat -> A) (n k : nat) (d : A) :
  (k < n)%nat -> nth k (map f (seq 0 n)) d = f k.
Proof.
  intros H.
  rewrite (nth_indep _ d (f 0%nat))
    by (rewrite length_map, length_seq; exact H).
  rewrite (map_nth f), seq_nth by exact H.
  reflexivity.
Qed.

Lemma has_shape_row (r c : nat) (m : matrix) (i : nat) :
  has_shape r c m -> (i < r)%nat -> length (nth i m []) = c.
Proof.
  intros [Hl Hr] Hi.
  rewrite Forall_forall in Hr.
  apply Hr, nth_In; lia.
Qed.

Lemma has_shape_ncols (r c : nat) (m : matrix) :
  has_shape r c m -> (0 < r)%nat -> ncols m = c.
Proof.
  intros [Hl Hr] Hpos; unfold ncols.
  destruct m as [|row m]; simpl in *; [lia|].
  inversion Hr; assumption.
Qed.

Lemma has_shape_map_seq (r c : nat) (f : nat -> vector) :
  (forall i, (i < r)%nat -> length (f i) = c) ->
  has_shape r c (map f (seq 0 r)).
Proof.
  intros H; split.
  - rewrite length_map, length_seq; reflexivity.
  - rewrite Forall_forall; intros row Hin.
    apply in_map_iff in Hin; destruct Hin as [i [<- Hi]].
    apply in_seq in Hi; apply H; lia.
Qed.

Lemma entry_map_seq (r c : nat) (f : nat -> nat -> R) (i k : nat) :
  (i < r)%nat -> (k < c)%nat ->
  entry (map (fun i => map (f i) (seq 0 c)) (seq 0 r)) i k = f i k.
Proof.
  intros Hi Hk; unfold entry.
  rewrite (nth_map_seq (fun i => map (f i) (seq 0 c))) by exact Hi.
  apply nth_map_seq; exact Hk.
Qed.

Lemma nth_col (j i : nat) (m : matrix) :
  nth i (col j m) 0 = entry m i j.
Proof.
  unfold col, entry.
  destruct (Nat.lt_ge_cases i (length m)) as [Hi|Hi].
  - rewrite (nth_indep _ 0 ((fun row => nth j row 0) [])) by
      (rewrite length_map; exact Hi).
    rewrite (map_nth (fun row => nth j row 0)); reflexivity.
  - rewrite (nth_overflow (map _ m)) by (rewrite length_map; exact Hi).
    rewrite (nth_overflow m) by exact Hi.
    destruct j; reflexivity.
Qed.

(** The transpose of an [r] by [c] array is [c] by [r] and swaps the two
    indices. *)
Lemma transpose_shape (r c : nat) (m : matrix) :
  has_shape r c m -> (0 < r)%nat -> has_shape c r (transpose m).
Proof.
  intros Hm Hr; unfold transpose.
  rewrite (has_shape_ncols r c m Hm Hr).
  apply has_shape_map_seq; intros i _.
  unfold col; rewrite length_map; apply Hm.
Qed.

Lemma transpose_entry (r c : nat) (m : matrix) (h k : nat) :
  has_shape r c m -> (0 < r)%nat -> (h < c)%nat ->
  entry (transpose m) h k = entry m k h.
Proof.
  intros Hm Hr Hh; unfold transpose.
  rewrite (has_shape_ncols r c m Hm Hr).
  unfold entry at 1.
  rewrite (nth_map_seq (fun j => col j m)) by exact Hh.
  apply nth_col.
Qed.

(** The logistic function stays strictly between 0 and 1. *)
Lemma sigmoid_range (t : R) : 0 < sigmoid t < 1.
Proof.
  unfold sigmoid.
  pose proof (exp_pos (- t)) as He.
  split.
  - apply Rdiv_lt_0_compat; lra.
  - apply (Rmult_lt_reg_r (1 + exp (- t))); [lra|].
    unfold Rdiv; rewrite Rmult_assoc, Rinv_l by lra; lra.
Qed.

(** A uniform sample lies in [0, 1). *)
Lemma sample_at_range (g : rng) (k : nat) : 0 <= sample_at g k < 1.
Proof.
  unfold sample_at.
  pose proof (Z.mod_pos_bound (raw g (pos g + k)) (2 ^ 53) eq_refl)
    as [Hlo Hhi].
  assert (Hd : 0 < IZR (2 ^ 53)) by (apply IZR_lt; reflexivity).
  apply IZR_le in Hlo; apply IZR_lt in Hhi.
  split.
  - apply Rmult_le_pos; [exact Hlo | left; apply Rinv_0_lt_compat; exact Hd].
  - apply (Rmult_lt_reg_r (IZR (2 ^ 53))); [exact Hd|].
    unfold Rdiv; rewrite Rmult_assoc, Rinv_l by lra; lra.
Qed.

(** A trial of probability one succeeds on every sample. *)
Lemma bernoulli_one (g : rng) (k : nat) : bernoulli (1 - 0) (sample_at g k) = 1.
Proof.
  unfold bernoulli.
  pose proof (sample_at_range g k).
  destruct (Rlt_dec (sample_at g k) (1 - 0)); [reflexivity | lra].
Qed.

Lemma map2_ones_row (f : nat -> R) (js : list nat) (row : vector) :
  (forall j, f j = 1) -> length js = length row ->
  map2 Rmult (map f js) row = row.
Proof.
  intros Hf; revert row; induction js as [|j js IH]; intros [|v row]; simpl;
    try congruence.
  intros Hl; rewrite Hf, Rmult_1_l; f_equal; apply IH; congruence.
Qed.

Lemma emul_ones (f : nat -> nat -> R) (c : nat) (ix : list nat) (x : matrix) :
  (forall i j, f i j = 1) -> length ix = length x ->
  Forall (fun row => length row = c) x ->
  emul (map (fun i => map (f i) (seq 0 c)) ix) x = x.
Proof.
  intros Hf; unfold emul; revert x.
  induction ix as [|i ix IH]; intros [|row x]; simpl; intros Hl Hx;
    try discriminate; [reflexivity|].
  inversion Hx as [|? ? Hrow Hrest]; subst.
  apply (f_equal2 cons).
  - apply map2_ones_row; [apply Hf | rewrite length_seq; reflexivity].
  - apply IH; [congruence | assumption].
Qed.

End ArrayFacts.

Section Corruption.
Local Open Scope R_scope.

(** C5. Corrupting an [r] by [c] batch at corruption level 0 returns the
    batch itself, for every object and hence for every state of its random
    stream: each mask entry is a trial of probability [1 - 0], which
    succeeds on every sample. *)
Theorem corrupt_zero_identity (self : dA) (x : matrix) (r c : nat) :
  has_shape r c x ->
  fst (get_corrupted_input self x 0) = x.
Proof.
  intros [Hl Hrows].
  unfold get_corrupted_input, binomial, draw, shape; simpl.
  destruct x as [|row x].
  - reflexivity.
  - assert (Hc : ncols (row :: x) = c) by
      (apply (has_shape_ncols r c); [split; assumption | simpl in Hl; lia]).
    rewrite Hc.
    apply (emul_ones
             (fun i j => bernoulli (1 - 0)
                           (sample_at (theano_rng self) (i * c + j)))).
    + intros i j; apply bernoulli_one.
    + rewrite length_seq; reflexivity.
    + exact Hrows.
Qed.

Lemma corrupt_zero_identity_witness :
  fst (get_corrupted_input
         (mk_dA 2 1 [[0]; [0]] [0] [0; 0] (mk_rng (fun n => Z.of_nat n) 7) 0 0)
         [[1; 0]; [1 / 2; 1]] 0)
  = [[1; 0]; [1 / 2; 1]].
Proof.
  apply (corrupt_zero_identity _ _ 2 2).
  split; [reflexivity | repeat constructor].
Defined.

(** The mask is not always transparent: on a stream whose samples are all
    1/2, corruption at level 7/10 zeroes every entry. *)
Example corrupt_drops_entries :
  fst (get_corrupted_input
         (mk_dA 2 1 [[0]; [0]] [0] [0; 0] (mk_rng (fun _ => (2 ^ 52)%Z) 0) 0 0)
         [[1; 1 / 2]] (7 / 10))
  = [[0; 0]].
Proof.
  assert (Hhalf : forall k,
             sample_at (mk_rng (fun _ => (2 ^ 52)%Z) 0) k = 1 / 2).
  { intros k; unfold sample_at; cbn [raw].
    change (2 ^ 52 mod 2 ^ 53)%Z with 4503599627370496%Z.
    change (2 ^ 53)%Z with 9007199254740992%Z.
    lra. }
  unfold get_corrupted_input, binomial, draw, shape, ncols, emul.
  cbn [theano_rng hd length seq map map2 fst].
  rewrite !Hhalf; unfold bernoulli.
  destruct (Rlt_dec (1 / 2) (1 - 7 / 10)) as [Hlt|_]; [lra|].
  rewrite !Rmult_0_l; reflexivity.
Qed.

End Corruption.

Section Construction.
Local Open Scope R_scope.

Variable RandomStreams : Z -> rng.

Lemma draw_shape (f : R -> R) (r c : nat) (g : rng) :
  has_shape r c (fst (draw f (r, c) g)).
Proof.
  simpl; apply has_shape_map_seq.
  intros i _; rewrite length_map, length_seq; reflexivity.
Qed.

Lemma draw_Forall (Q : R -> Prop) (f : R -> R) (size : nat * nat) (g : rng) :
  (forall u, 0 <= u < 1 -> Q (f u)) ->
  Forall (Forall Q) (fst (draw f size g)).
Proof.
  intros Hf; destruct size as [r c]; simpl.
  rewrite Forall_forall; intros row Hrow.
  apply in_map_iff in Hrow; destruct Hrow as [i [<- _]].
  rewrite Forall_forall; intros v Hv.
  apply in_map_iff in Hv; destruct Hv as [j [<- _]].
  apply Hf, sample_at_range.
Qed.

(** Every entry [uniform] draws lies between its two limits. *)
Lemma uniform_bounds (g : rng) (low high : R) (size : nat * nat) :
  low <= high ->
  Forall (Forall (fun w => low <= w <= high)) (fst (uniform g low high size)).
Proof.
  intros Hle; apply draw_Forall; intros u [Hu0 Hu1]; nra.
Qed.

Lemma init_bound_nonneg (nv nh : Z) : 0 <= init_bound nv nh.
Proof.
  unfold init_bound.
  pose proof (sqrt_pos (6 / IZR (nh + nv))); lra.
Qed.

Lemma zeros_ok (n : Z) : (0 <= n)%Z -> zeros n = Ok (repeat 0 (Z.to_nat n)).
Proof.
  intros Hn; unfold zeros.
  destruct (Z.ltb_spec n 0); [lia | reflexivity].
Qed.

Lemma initial_W_ok (g : rng) (nv nh : Z) :
  (0 <= nv)%Z -> (0 <= nh)%Z -> (0 < nv + nh)%Z ->
  initial_W g nv nh
  = Ok (uniform g (- init_bound nv nh) (init_bound nv nh)
                (Z.to_nat nv, Z.to_nat nh)).
Proof.
  intros Hv Hh Hs; unfold initial_W.
  destruct (Z.eqb_spec (nh + nv) 0); [lia|].
  destruct (Z.ltb_spec nv 0); [lia|].
  destruct (Z.ltb_spec nh 0); [lia|].
  reflexivity.
Qed.

(** C7. Constructing the model without supplied tensors, for dimensions
    that are not negative and not both zero, succeeds and yields: [b] the
    zero vector of length [n_hidden], [b_prime] the zero vector of length
    [n_visible], and a [W] of shape [n_visible] by [n_hidden] whose every
    entry lies within [4 * sqrt (6 / (n_hidden + n_visible))] of zero. *)
Theorem init_standalone (numpy_rng : rng) (theano_rng : option rng)
  (nv nh : Z) (level lambda : R) :
  (0 <= nv)%Z -> (0 <= nh)%Z -> (0 < nv + nh)%Z ->
  exists (self : dA) (g : rng),
    init RandomStreams numpy_rng theano_rng nv nh None None None level lambda
    = Ok (self, g)
    /\ b self = repeat 0 (Z.to_nat nh)
    /\ length (b self) = Z.to_nat nh
    /\ b_prime self = repeat 0 (Z.to_nat nv)
    /\ length (b_prime self) = Z.to_nat nv
    /\ has_shape (Z.to_nat nv) (Z.to_nat nh) (W self)
    /\ Forall (Forall (fun w =>
                 - (4 * sqrt (6 / IZR (nh + nv))) <= w
                 <= 4 * sqrt (6 / IZR (nh + nv))))
              (W self).
Proof.
  intros Hv Hh Hs.
  unfold init.
  set (streams :=
         match theano_rng with
         | Some t => (t, numpy_rng)
         | None =>
             let (seed, g) := randint numpy_rng (2 ^ 30) in
             (RandomStreams seed, g)
         end).
  destruct streams as [t g0].
  rewrite (initial_W_ok g0 nv nh Hv Hh Hs), (zeros_ok nv Hv), (zeros_ok nh Hh).
  destruct (uniform g0 (- init_bound nv nh) (init_bound nv nh)
                    (Z.to_nat nv, Z.to_nat nh)) as [w g1] eqn:Hu.
  exists (mk_dA nv nh w (repeat 0 (Z.to_nat nh)) (repeat 0 (Z.to_nat nv))
                t level lambda), g1.
  assert (Hw : w = fst (uniform g0 (- init_bound nv nh) (init_bound nv nh)
                                (Z.to_nat nv, Z.to_nat nh)))
    by (rewrite Hu; reflexivity).
  simpl.
  split; [reflexivity|].
  split; [reflexivity|].
  split; [apply repeat_length|].
  split; [reflexivity|].
  split; [apply repeat_length|].
  split.
  - rewrite Hw; unfold uniform; apply (draw_shape _ _ _ g0).
  - rewrite Hw.
    apply (uniform_bounds g0 (- init_bound nv nh) (init_bound nv nh)).
    pose proof (init_bound_nonneg nv nh); lra.
Qed.

(** Outside those dimensions the constructor raises: the float division
    rejects a zero sum and the samplers reject a negative dimension. *)
Lemma init_standalone_raises (numpy_rng : rng) (theano_rng : option rng)
  (nv nh : Z) (level lambda : R) :
  (nv < 0 \/ nh < 0 \/ nv + nh = 0)%Z ->
  exists e,
    init RandomStreams numpy_rng theano_rng nv nh None None None level lambda
    = Raise e.
Proof.
  intros Hbad; unfold init.
  set (streams :=
         match theano_rng with
         | Some t => (t, numpy_rng)
         | None =>
             let (seed, g) := randint numpy_rng (2 ^ 30) in
             (RandomStreams seed, g)
         end).
  destruct streams as [t g0].
  unfold initial_W.
  destruct (Z.eqb_spec (nh + nv) 0) as [|Hsum]; [eexists; reflexivity|].
  destruct (Z.ltb_spec nv 0) as [|Hv]; [eexists; reflexivity|].
  destruct (Z.ltb_spec nh 0) as [|Hh]; [eexists; reflexivity|].
  lia.
Qed.

End Construction.

Lemma init_standalone_witness :
  exists (self : dA) (g : rng),
    init (fun seed => mk_rng (fun n => (seed + Z.of_nat n)%Z) 0)
         (mk_rng (fun n => Z.of_nat (3 * n + 1)) 0) None
         784 500 None None None 0%R 0%R
    = Ok (self, g)
    /\ b self = repeat 0%R (Z.to_nat 500)
    /\ length (b self) = Z.to_nat 500
    /\ b_prime self = repeat 0%R (Z.to_nat 784)
    /\ length (b_prime self) = Z.to_nat 784
    /\ has_shape (Z.to_nat 784) (Z.to_nat 500) (W self)
    /\ Forall (Forall (fun w =>
                 (- (4 * sqrt (6 / IZR (500 + 784))) <= w
                  <= 4 * sqrt (6 / IZR (500 + 784)))%R))
              (W self).
Proof.
  apply (init_standalone
           (fun seed => mk_rng (fun n => (seed + Z.of_nat n)%Z) 0)
           (mk_rng (fun n => Z.of_nat (3 * n + 1)) 0) None 784 500 0%R 0%R);
    lia.
Defined.

Section ShapesAndSums.
Local Open Scope R_scope.

Lemma big_sum_S (n : nat) (f : nat -> R) :
  big_sum (S n) f = f 0%nat + big_sum n (fun i => f (S i)).
Proof.
  unfold big_sum; simpl.
  rewrite <- seq_shift, map_map; reflexivity.
Qed.

Lemma big_sum_ext (n : nat) (f g : nat -> R) :
  (forall i, (i < n)%nat -> f i = g i) -> big_sum n f = big_sum n g.
Proof.
  intros H; unfold big_sum; f_equal.
  apply map_ext_in; intros i Hi; apply in_seq in Hi; apply H; lia.
Qed.

(** A list sum is the indexed sum of its entries. *)
Lemma sum_nth (v : vector) : sum v = big_sum (length v) (fun i => nth i v 0).
Proof.
  induction v as [|a v IH]; [reflexivity|].
  simpl length; rewrite big_sum_S; simpl; rewrite IH; reflexivity.
Qed.

Lemma has_shape_emap (f : R -> R) (r c : nat) (m : matrix) :
  has_shape r c m -> has_shape r c (emap f m).
Proof.
  intros [Hl Hr]; split; unfold emap.
  - rewrite length_map; exact Hl.
  - rewrite Forall_map; eapply Forall_impl; [|exact Hr].
    intros row Hrow; simpl; rewrite length_map; exact Hrow.
Qed.

Lemma entry_emap (f : R -> R) (r c : nat) (m : matrix) (i k : nat) :
  has_shape r c m -> (i < r)%nat -> (k < c)%nat ->
  entry (emap f m) i k = f (entry m i k).
Proof.
  intros Hm Hi Hk; unfold entry, emap.
  pose proof (has_shape_row r c m i Hm Hi) as Hrow.
  destruct Hm as [Hl _].
  rewrite (nth_indep _ [] (map f [])) by (rewrite length_map; lia).
  rewrite (map_nth (map f)).
  rewrite (nth_indep _ 0 (f 0)) by (rewrite length_map; lia).
  rewrite (map_nth f); reflexivity.
Qed.

Lemma has_shape_map2 (f : R -> R -> R) (r c : nat) (a m : matrix) :
  has_shape r c a -> has_shape r c m -> has_shape r c (map2 (map2 f) a m).
Proof.
  intros [Hla Hra] [Hlm Hrm]; split.
  - rewrite map2_length; congruence.
  - clear Hla Hlm; revert m Hrm.
    induction Hra as [|u a Hu Ha IH]; intros m Hrm; [constructor|].
    destruct Hrm as [|v m Hv Hm]; [constructor|].
    simpl; constructor; [rewrite map2_length; congruence | apply IH; exact Hm].
Qed.

Lemma entry_map2 (f : R -> R -> R) (r c : nat) (a m : matrix) (i k : nat) :
  has_shape r c a -> has_shape r c m -> (i < r)%nat -> (k < c)%nat ->
  entry (map2 (map2 f) a m) i k = f (entry a i k) (entry m i k).
Proof.
  intros Ha Hm Hi Hk; unfold entry.
  pose proof (has_shape_row r c a i Ha Hi) as Hra.
  pose proof (has_shape_row r c m i Hm Hi) as Hrm.
  destruct Ha as [Hla _], Hm as [Hlm _].
  rewrite (nth_map2 (map2 f) a m [] [] []) by lia.
  apply nth_map2; lia.
Qed.

Lemma has_shape_dot (r : nat) (a m : matrix) :
  length a = r -> has_shape r (ncols m) (dot a m).
Proof.
  intros Hl; split; unfold dot.
  - rewrite length_map; exact Hl.
  - rewrite Forall_map, Forall_forall; intros row _.
    rewrite length_map, length_seq; reflexivity.
Qed.

(** Entry [(i, j)] of a product is the sum over [k] of [a_ik * m_kj]. *)
Lemma entry_dot (r n c : nat) (a m : matrix) (i j : nat) :
  has_shape r n a -> has_shape n c m -> (0 < n)%nat ->
  (i < r)%nat -> (j < c)%nat ->
  entry (dot a m) i j = big_sum n (fun k => entry a i k * entry m k j).
Proof.
  intros Ha Hm Hn Hi Hj.
  pose proof (has_shape_row r n a i Ha Hi) as Hrow.
  unfold entry at 1; unfold dot.
  rewrite (has_shape_ncols n c m Hm Hn).
  destruct Ha as [Hla _].
  rewrite (nth_indep _ []
             ((fun row => map (fun j => dotp row (col j m)) (seq 0 c)) []))
    by (rewrite length_map; lia).
  rewrite (map_nth (fun row => map (fun j => dotp row (col j m)) (seq 0 c))).
  rewrite (nth_map_seq (fun j => dotp (nth i a []) (col j m))) by exact Hj.
  unfold dotp; rewrite sum_nth.
  assert (Hcol : length (col j m) = n)
    by (unfold col; rewrite length_map; apply Hm).
  rewrite map2_length by congruence.
  rewrite Hrow; apply big_sum_ext; intros k Hk.
  rewrite (nth_map2 Rmult _ _ 0 0 0) by lia.
  rewrite nth_col; reflexivity.
Qed.

Lemma has_shape_add_bias (r c : nat) (m : matrix) (v : vector) :
  has_shape r c m -> length v = c -> has_shape r c (add_bias m v).
Proof.
  intros [Hl Hr] Hv; split; unfold add_bias.
  - rewrite length_map; exact Hl.
  - rewrite Forall_map; eapply Forall_impl; [|exact Hr].
    intros row Hrow; simpl; rewrite map2_length; congruence.
Qed.

Lemma entry_add_bias (r c : nat) (m : matrix) (v : vector) (i k : nat) :
  has_shape r c m -> length v = c -> (i < r)%nat -> (k < c)%nat ->
  entry (add_bias m v) i k = entry m i k + nth k v 0.
Proof.
  intros Hm Hv Hi Hk; unfold entry, add_bias.
  pose proof (has_shape_row r c m i Hm Hi) as Hrow.
  destruct Hm as [Hl _].
  rewrite (nth_indep _ [] ((fun row => map2 Rplus row v) []))
    by (rewrite length_map; lia).
  rewrite (map_nth (fun row => map2 Rplus row v)).
  apply nth_map2; lia.
Qed.

End ShapesAndSums.

Section TiedWeights.
Local Open Scope R_scope.

(** Decoding against the current weights, entry by entry: feature [k] of
    example [i] is the sigmoid of the hidden row times row [k] of [W], plus
    [b_prime_k]. *)
Lemma decode_entry (m nv nh : nat) (self : dA) (hidden : matrix) (i k : nat) :
  has_shape nv nh (W self) -> has_shape m nh hidden ->
  length (b_prime self) = nv ->
  (0 < nv)%nat -> (0 < nh)%nat -> (i < m)%nat -> (k < nv)%nat ->
  entry (get_reconstructed_input self hidden) i k
  = sigmoid (big_sum nh (fun h => entry hidden i h * entry (W self) k h)
             + nth k (b_prime self) 0).
Proof.
  intros HW Hh Hb Hv Hn Hi Hk.
  assert (HW' : has_shape nh nv (W_prime self))
    by (apply transpose_shape; assumption).
  assert (Hdot : has_shape m nv (dot hidden (W_prime self))).
  { rewrite <- (has_shape_ncols nh nv (W_prime self) HW' Hn).
    apply has_shape_dot, Hh. }
  unfold get_reconstructed_input.
  rewrite (entry_emap sigmoid m nv)
    by (try apply has_shape_add_bias; assumption).
  rewrite (entry_add_bias m nv) by assumption.
  rewrite (entry_dot m nh nv) by assumption.
  do 2 f_equal.
  apply big_sum_ext; intros h Hlt.
  unfold W_prime; rewrite (transpose_entry nv nh) by assumption.
  reflexivity.
Qed.

(** C6. The decode matrix is the transpose of whatever [W] currently holds.
    After any update [w] of the shared weight matrix, of shape [nv] by
    [nh]: [W_prime] is the transpose of [w], of shape [nh] by [nv], with
    entry [(h, k)] equal to entry [(k, h)] of [w]; and decoding a hidden
    batch gives [sigmoid (sum_h hidden_ih * w_kh + b_prime_k)], computed
    from [w] with no further step. *)
Theorem W_prime_tracks_W (m nv nh : nat) (self : dA) (w hidden : matrix) :
  has_shape nv nh w -> has_shape m nh hidden ->
  length (b_prime self) = nv ->
  (0 < nv)%nat -> (0 < nh)%nat ->
  W_prime (set_W self w) = transpose w
  /\ has_shape nh nv (W_prime (set_W self w))
  /\ (forall h k, (h < nh)%nat -> (k < nv)%nat ->
        entry (W_prime (set_W self w)) h k = entry w k h)
  /\ get_reconstructed_input (set_W self w) hidden
     = emap sigmoid (add_bias (dot hidden (transpose w)) (b_prime self))
  /\ (forall i k, (i < m)%nat -> (k < nv)%nat ->
        entry (get_reconstructed_input (set_W self w) hidden) i k
        = sigmoid (big_sum nh (fun h => entry hidden i h * entry w k h)
                   + nth k (b_prime self) 0)).
Proof.
  intros Hw Hh Hb Hv Hn.
  split; [reflexivity|].
  split; [apply (transpose_shape nv nh w Hw Hv)|].
  split; [intros h k Hlt _; apply (transpose_entry nv nh); assumption|].
  split; [reflexivity|].
  intros i k Hi Hk.
  apply (decode_entry m nv nh (set_W self w) hidden i k); assumption.
Qed.

Lemma W_prime_tracks_W_witness :
  let self := mk_dA 2 3 [[0; 0; 0]; [0; 0; 0]] [0; 0; 0] [0; 1]
                    (mk_rng (fun n => 0%Z) 0) 0 0 in
  let w := [[1; 2; 3]; [4; 5; 6]] in
  let hidden := [[1 / 2; 1 / 3; 1 / 4]] in
  W_prime (set_W self w) = transpose w
  /\ has_shape 3 2 (W_prime (set_W self w))
  /\ (forall h k, (h < 3)%nat -> (k < 2)%nat ->
        entry (W_prime (set_W self w)) h k = entry w k h)
  /\ get_reconstructed_input (set_W self w) hidden
     = emap sigmoid (add_bias (dot hidden (transpose w)) (b_prime self))
  /\ (forall i k, (i < 1)%nat -> (k < 2)%nat ->
        entry (get_reconstructed_input (set_W self w) hidden) i k
        = sigmoid (big_sum 3 (fun h => entry hidden i h * entry w k h)
                   + nth k (b_prime self) 0)).
Proof.
  intros self w hidden.
  apply (W_prime_tracks_W 1 2 3 self w hidden).
  - split; [reflexivity | repeat constructor].
  - split; [reflexivity | repeat constructor].
  - reflexivity.
  - lia.
  - lia.
Defined.

End TiedWeights.

Section CostSign.
Local Open Scope R_scope.

Lemma Forall_map2 {A B C : Type} (PA : A -> Prop) (PB : B -> Prop)
  (PC : C -> Prop) (f : A -> B -> C) (u : list A) (v : list B) :
  (forall a b0, PA a -> PB b0 -> PC (f a b0)) ->
  Forall PA u -> Forall PB v -> Forall PC (map2 f u v).
Proof.
  intros Hf Hu; revert v.
  induction Hu as [|a u Ha Hu IH]; intros v Hv; [constructor|].
  destruct Hv as [|b0 v Hb Hv]; simpl; constructor; auto.
Qed.

Lemma Forall_emap (PA PB : R -> Prop) (f : R -> R) (m : matrix) :
  (forall v, PA v -> PB (f v)) ->
  Forall (Forall PA) m -> Forall (Forall PB) (emap f m).
Proof.
  intros Hf Hm; unfold emap.
  rewrite Forall_map; eapply Forall_impl; [|exact Hm].
  intros row Hrow; simpl.
  rewrite Forall_map; eapply Forall_impl; [|exact Hrow].
  exact Hf.
Qed.

(** Every entry of a sigmoid layer lies strictly between 0 and 1. *)
Lemma emap_sigmoid_range (m : matrix) :
  Forall (Forall (fun v => 0 < v < 1)) (emap sigmoid m).
Proof.
  apply (Forall_emap (fun _ => True)).
  - intros v _; apply sigmoid_range.
  - rewrite Forall_forall; intros row _.
    rewrite Forall_forall; intros v _; exact I.
Qed.

Lemma hidden_range (self : dA) (input : matrix) :
  Forall (Forall (fun v => 0 < v < 1)) (get_hidden_values self input).
Proof. apply emap_sigmoid_range. Qed.

Lemma reconstruction_range (self : dA) (hidden : matrix) :
  Forall (Forall (fun v => 0 < v < 1)) (get_reconstructed_input self hidden).
Proof. apply emap_sigmoid_range. Qed.

Lemma sum_nonneg (v : vector) : Forall (fun t => 0 <= t) v -> 0 <= sum v.
Proof.
  induction 1 as [|a v Ha Hv IH]; simpl; lra.
Qed.

Lemma sum_nonpos (v : vector) : Forall (fun t => t <= 0) v -> sum v <= 0.
Proof.
  induction 1 as [|a v Ha Hv IH]; simpl; lra.
Qed.

Lemma mean_nonneg (v : vector) : Forall (fun t => 0 <= t) v -> 0 <= mean v.
Proof.
  intros Hv; unfold mean, Rdiv.
  destruct v as [|a v].
  - simpl; lra.
  - apply Rmult_le_pos; [apply sum_nonneg; exact Hv|].
    left; apply Rinv_0_lt_compat, lt_0_INR; simpl; lia.
Qed.

Lemma col_nonneg (j : nat) (m : matrix) :
  Forall (Forall (fun v => 0 <= v)) m -> Forall (fun t => 0 <= t) (col j m).
Proof.
  intros Hm; unfold col.
  rewrite Forall_map; eapply Forall_impl; [|exact Hm].
  intros row Hrow; simpl.
  destruct (nth_in_or_default j row 0) as [Hin | ->]; [|lra].
  rewrite Forall_forall in Hrow; apply Hrow; exact Hin.
Qed.

Lemma ln_nonpos (v : R) : 0 < v < 1 -> ln v <= 0.
Proof.
  intros [H0 H1]; left; rewrite <- ln_1; apply ln_increasing; assumption.
Qed.

(** Every per-example cross-entropy is non-negative when the batch entries
    lie in [0, 1]. *)
Lemma L_nonneg (self : dA) (x : matrix) :
  Forall (Forall (fun v => 0 <= v <= 1)) x ->
  Forall (fun t => 0 <= t) (L self x).
Proof.
  intros Hx; unfold L, sum_axis1.
  rewrite !Forall_map.
  assert (HM : Forall (Forall (fun t => t <= 0))
                 (eadd (emul x (emap ln (z self x)))
                       (emul (emap (fun v => 1 - v) x)
                             (emap ln (emap (fun v => 1 - v) (z self x)))))).
  { unfold eadd, emul.
    apply (Forall_map2 (Forall (fun t => t <= 0)) (Forall (fun t => t <= 0))).
    - intros u v Hu Hv.
      apply (Forall_map2 (fun t => t <= 0) (fun t => t <= 0));
        [intros; lra | exact Hu | exact Hv].
    - apply (Forall_map2 (Forall (fun v => 0 <= v <= 1))
                         (Forall (fun t => t <= 0))).
      + intros u v Hu Hv.
        apply (Forall_map2 (fun v => 0 <= v <= 1) (fun t => t <= 0));
          [intros; nra | exact Hu | exact Hv].
      + exact Hx.
      + apply (Forall_emap (fun v => 0 < v < 1)); [apply ln_nonpos|].
        apply reconstruction_range.
    - apply (Forall_map2 (Forall (fun v => 0 <= v <= 1))
                         (Forall (fun t => t <= 0))).
      + intros u v Hu Hv.
        apply (Forall_map2 (fun v => 0 <= v <= 1) (fun t => t <= 0));
          [intros; nra | exact Hu | exact Hv].
      + apply (Forall_emap (fun v => 0 <= v <= 1)); [intros; lra | exact Hx].
      + apply (Forall_emap (fun v => 0 < v < 1)); [apply ln_nonpos|].
        apply (Forall_emap (fun v => 0 < v < 1)); [intros; lra|].
        apply reconstruction_range. }
  eapply Forall_impl; [|exact HM].
  intros row Hrow; simpl.
  pose proof (sum_nonpos row Hrow); lra.
Qed.

(** The sum of the batch means of the hidden units is non-negative. *)
Lemma hidden_means_nonneg (self : dA) (x : matrix) :
  0 <= sum (mean_axis0 (y self x)).
Proof.
  apply sum_nonneg; unfold mean_axis0.
  rewrite Forall_map, Forall_forall; intros j _.
  apply mean_nonneg, col_nonneg.
  eapply Forall_impl; [|apply hidden_range].
  intros row Hrow; simpl.
  eapply Forall_impl; [|exact Hrow].
  intros v Hv; simpl in Hv; lra.
Qed.

(** C8, in binary64: finite parameters can drive an activation out of the
    open interval.  With one visible and one hidden unit, input 1/2, weight
    0, hidden bias 1000 and visible bias -1000, the hidden activation is
    exactly 1 and the reconstruction is exactly 0. *)
Lemma activations_saturate_in_binary64 :
  (is_finite (1 / 2) && is_finite 0 && is_finite 1000
   && is_finite (- 1000))%float = true
  /\ hidden_unit64 (1 / 2) 0 1000 = Some 1%float
  /\ (1 <? 1)%float = false
  /\ reconstructed_unit64 1 0 (- 1000) = Some 0%float
  /\ (0 <? 0)%float = false.
Proof. repeat split; vm_compute; reflexivity. Qed.

(** C8, in exact real arithmetic.  On a well-shaped batch whose entries lie
    in [0, 1], with a sparsity weight that is not negative, the mean
    cross-entropy, the sparsity penalty and the cost are non-negative,
    because every reconstruction and every hidden activation lies strictly
    between 0 and 1.  The parameters are arbitrary reals. *)
Theorem cost_nonneg (m nv nh : nat) (self : dA) (x : matrix) :
  well_shaped m nv nh self x ->
  Forall (Forall (fun v => 0 <= v <= 1)) x ->
  0 <= sparsity_lambda self ->
  Forall (Forall (fun v => 0 < v < 1)) (y self x)
  /\ Forall (Forall (fun v => 0 < v < 1)) (z self x)
  /\ 0 <= mean (L self x)
  /\ 0 <= L1_hidden_penalty self x
  /\ 0 <= cost self x.
Proof.
  intros _ Hx Hlambda.
  assert (HL : 0 <= mean (L self x)) by (apply mean_nonneg, L_nonneg, Hx).
  assert (HP : 0 <= L1_hidden_penalty self x).
  { unfold L1_hidden_penalty.
    apply Rmult_le_pos; [exact Hlambda | apply hidden_means_nonneg]. }
  split; [apply hidden_range|].
  split; [apply reconstruction_range|].
  split; [exact HL|].
  split; [exact HP|].
  unfold cost; lra.
Qed.

Lemma cost_nonneg_witness :
  let self :=
    mk_dA 2 1 [[1]; [-2]] [0] [0; 3] (mk_rng (fun n => Z.of_nat n) 0)
          (3 / 10) (8 / 100) in
  let x := [[0; 1]; [1 / 2; 1]; [1; 0]] in
  Forall (Forall (fun v => 0 < v < 1)) (y self x)
  /\ Forall (Forall (fun v => 0 < v < 1)) (z self x)
  /\ 0 <= mean (L self x)
  /\ 0 <= L1_hidden_penalty self x
  /\ 0 <= cost self x.
Proof.
  intros self x.
  apply (cost_nonneg 3 2 1 self x).
  - unfold well_shaped, has_shape; simpl.
    repeat split; try lia; repeat constructor.
  - repeat constructor; lra.
  - simpl; lra.
Defined.

End CostSign.

Section CostFormula.
Local Open Scope R_scope.

Variables (m nv nh : nat) (self : dA) (x : matrix).
Hypothesis shapes : well_shaped m nv nh self x.

(** Shapes of elementwise combinations of arrays already known. *)
Ltac shape_tac :=
  repeat first
    [ assumption
    | apply has_shape_map2
    | apply has_shape_emap ].

Lemma mask_shape (p : R) :
  has_shape m nv (fst (binomial (theano_rng self) (shape x) p)).
Proof.
  pose proof shapes as (Hm & _ & _ & Hx & _).
  unfold shape; rewrite (has_shape_ncols m nv x Hx Hm).
  destruct Hx as [-> _].
  apply draw_shape.
Qed.

Lemma mask_entry (p : R) (i k : nat) :
  (i < m)%nat -> (k < nv)%nat ->
  entry (fst (binomial (theano_rng self) (shape x) p)) i k
  = bernoulli p (sample_at (theano_rng self) (i * nv + k)).
Proof.
  intros Hi Hk.
  pose proof shapes as (Hm & _ & _ & Hx & _).
  unfold shape; rewrite (has_shape_ncols m nv x Hx Hm).
  destruct Hx as [-> _].
  apply (entry_map_seq m nv
           (fun i j => bernoulli p (sample_at (theano_rng self) (i * nv + j))));
    assumption.
Qed.

Lemma tilde_x_unfold :
  tilde_x self x
  = emul (fst (binomial (theano_rng self) (shape x)
                        (1 - corruption_level self))) x.
Proof.
  unfold tilde_x, get_corrupted_input.
  destruct (binomial (theano_rng self) (shape x) (1 - corruption_level self));
    reflexivity.
Qed.

Lemma tilde_x_shape : has_shape m nv (tilde_x self x).
Proof.
  rewrite tilde_x_unfold.
  apply has_shape_map2; [apply mask_shape | apply shapes].
Qed.

(** The corrupted entry is the mask trial times the original entry. *)
Lemma tilde_x_entry (i k : nat) :
  (i < m)%nat -> (k < nv)%nat ->
  entry (tilde_x self x) i k
  = bernoulli (1 - corruption_level self)
              (sample_at (theano_rng self) (i * nv + k))
    * entry x i k.
Proof.
  intros Hi Hk.
  rewrite tilde_x_unfold; unfold emul.
  rewrite (entry_map2 Rmult m nv);
    [| apply mask_shape | apply shapes | exact Hi | exact Hk].
  rewrite mask_entry by assumption; reflexivity.
Qed.

Lemma y_shape : has_shape m nh (y self x).
Proof.
  pose proof shapes as (_ & Hv & _ & _ & HW & Hb & _).
  unfold y, get_hidden_values.
  apply has_shape_emap, has_shape_add_bias; [|exact Hb].
  rewrite <- (has_shape_ncols nv nh (W self) HW Hv).
  apply has_shape_dot, tilde_x_shape.
Qed.

Lemma W_prime_shape : has_shape nh nv (W_prime self).
Proof.
  pose proof shapes as (_ & Hv & _ & _ & HW & _).
  apply transpose_shape; assumption.
Qed.

Lemma z_shape : has_shape m nv (z self x).
Proof.
  pose proof shapes as (_ & _ & Hh & _ & _ & _ & Hb').
  unfold z, get_reconstructed_input.
  apply has_shape_emap, has_shape_add_bias; [|exact Hb'].
  rewrite <- (has_shape_ncols nh nv (W_prime self) W_prime_shape Hh).
  apply has_shape_dot, y_shape.
Qed.

(** The hidden unit [h] of example [i] is the sigmoid of the corrupted row
    times column [h] of [W], plus [b_h]. *)
Lemma y_entry (i h : nat) :
  (i < m)%nat -> (h < nh)%nat ->
  entry (y self x) i h
  = sigmoid (big_sum nv (fun k => entry (tilde_x self x) i k
                                  * entry (W self) k h)
             + nth h (b self) 0).
Proof.
  intros Hi Hh.
  pose proof shapes as (_ & Hv & _ & _ & HW & Hb & _).
  assert (Hdot : has_shape m nh (dot (tilde_x self x) (W self))).
  { rewrite <- (has_shape_ncols nv nh (W self) HW Hv).
    apply has_shape_dot, tilde_x_shape. }
  unfold y, get_hidden_values.
  rewrite (entry_emap sigmoid m nh)
    by (try apply has_shape_add_bias; assumption).
  rewrite (entry_add_bias m nh) by assumption.
  rewrite (entry_dot m nv nh) by (try apply tilde_x_shape; assumption).
  reflexivity.
Qed.

(** The reconstructed feature [k] of example [i] is the sigmoid of the
    hidden row times row [k] of [W] (column [k] of its transpose), plus
    [b_prime_k]. *)
Lemma z_entry (i k : nat) :
  (i < m)%nat -> (k < nv)%nat ->
  entry (z self x) i k
  = sigmoid (big_sum nh (fun h => entry (y self x) i h * entry (W self) k h)
             + nth k (b_prime self) 0).
Proof.
  intros Hi Hk.
  pose proof shapes as (_ & Hv & Hh & _ & HW & _ & Hb').
  pose proof W_prime_shape as HW'.
  assert (Hdot : has_shape m nv (dot (y self x) (W_prime self))).
  { rewrite <- (has_shape_ncols nh nv (W_prime self) HW' Hh).
    apply has_shape_dot, y_shape. }
  unfold z, get_reconstructed_input.
  rewrite (entry_emap sigmoid m nv)
    by (try apply has_shape_add_bias; assumption).
  rewrite (entry_add_bias m nv) by assumption.
  rewrite (entry_dot m nh nv) by (try apply y_shape; assumption).
  do 2 f_equal.
  apply big_sum_ext; intros h Hlt.
  unfold W_prime; rewrite (transpose_entry nv nh) by assumption.
  reflexivity.
Qed.

Lemma L_entry (i : nat) :
  (i < m)%nat -> nth i (L self x) 0 = spec_L nv x (z self x) i.
Proof.
  intros Hi.
  pose proof shapes as (_ & _ & _ & Hx & _).
  pose proof z_shape as Hz.
  set (M := eadd (emul x (emap ln (z self x)))
                 (emul (emap (fun v => 1 - v) x)
                       (emap ln (emap (fun v => 1 - v) (z self x))))).
  assert (HA : has_shape m nv (emul x (emap ln (z self x))))
    by shape_tac.
  assert (HB : has_shape m nv
                 (emul (emap (fun v => 1 - v) x)
                       (emap ln (emap (fun v => 1 - v) (z self x)))))
    by shape_tac.
  assert (HM : has_shape m nv M) by (unfold M; shape_tac).
  unfold L, sum_axis1; fold M.
  rewrite map_map.
  rewrite (nth_indep _ 0 ((fun row => - sum row) []))
    by (rewrite length_map; destruct HM as [-> _]; exact Hi).
  rewrite (map_nth (fun row => - sum row)).
  unfold spec_L; f_equal.
  rewrite sum_nth, (has_shape_row m nv M i HM Hi).
  apply big_sum_ext; intros k Hk.
  change (nth k (nth i M []) 0) with (entry M i k).
  unfold M, eadd; rewrite (entry_map2 Rplus m nv) by shape_tac.
  unfold emul; rewrite !(entry_map2 Rmult m nv) by shape_tac.
  rewrite !(entry_emap _ m nv) by shape_tac.
  reflexivity.
Qed.

Lemma L_length : length (L self x) = m.
Proof.
  pose proof shapes as (_ & _ & _ & Hx & _).
  pose proof z_shape as Hz.
  unfold L, sum_axis1; rewrite !length_map.
  apply (has_shape_map2 Rplus m nv); shape_tac.
Qed.

Lemma mean_L_formula :
  mean (L self x) = big_sum m (spec_L nv x (z self x)) / INR m.
Proof.
  unfold mean; rewrite sum_nth, L_length.
  f_equal; apply big_sum_ext; intros i Hi; apply L_entry; exact Hi.
Qed.

Lemma penalty_formula :
  L1_hidden_penalty self x
  = spec_penalty m nh (sparsity_lambda self) (y self x).
Proof.
  pose proof shapes as (Hm & _).
  pose proof y_shape as Hy.
  unfold L1_hidden_penalty, spec_penalty, mean_axis0; f_equal.
  rewrite (has_shape_ncols m nh _ Hy Hm).
  unfold big_sum at 1; f_equal.
  apply map_ext_in; intros h _.
  unfold mean; rewrite sum_nth.
  assert (Hlen : length (col h (y self x)) = m)
    by (unfold col; rewrite length_map; apply Hy).
  rewrite Hlen; f_equal.
  apply big_sum_ext; intros i _; apply nth_col.
Qed.

End CostFormula.

Section CostDecomposition.
Local Open Scope R_scope.

(** C1. On a well-shaped batch the scalar cost is
    [mean_i L_i + sparsity_lambda * sum_h mean_i y_ih] with
    [L_i = - sum_k (x_ik log z_ik + (1 - x_ik) log (1 - z_ik))], where [y]
    and [z] are the encoding and the reconstruction of the corrupted batch
    and the [x_ik] in [L_i] are entries of the batch as it was given, not
    of its corrupted copy.  Entries and parameters are arbitrary reals. *)
Theorem cost_formula (m nv nh : nat) (self : dA) (x : matrix) :
  well_shaped m nv nh self x ->
  let corrupted := fst (get_corrupted_input self x (corruption_level self)) in
  let hidden := get_hidden_values self corrupted in
  let reconstructed := get_reconstructed_input self hidden in
  cost self x
  = big_sum m (fun i =>
      - big_sum nv (fun k =>
          entry x i k * ln (entry reconstructed i k)
          + (1 - entry x i k) * ln (1 - entry reconstructed i k))) / INR m
    + sparsity_lambda self
      * big_sum nh (fun h => big_sum m (fun i => entry hidden i h) / INR m).
Proof.
  intros Hs corrupted hidden reconstructed.
  unfold cost.
  rewrite (mean_L_formula m nv nh self x Hs).
  rewrite (penalty_formula m nv nh self x Hs).
  reflexivity.
Qed.

Lemma cost_formula_witness :
  let self :=
    mk_dA 2 1 [[1]; [-2]] [0] [0; 3] (mk_rng (fun n => Z.of_nat n) 0)
          (3 / 10) (8 / 100) in
  let x := [[0; 1]; [1 / 2; 1]; [1; 0]] in
  let corrupted := fst (get_corrupted_input self x (corruption_level self)) in
  let hidden := get_hidden_values self corrupted in
  let reconstructed := get_reconstructed_input self hidden in
  cost self x
  = big_sum 3 (fun i =>
      - big_sum 2 (fun k =>
          entry x i k * ln (entry reconstructed i k)
          + (1 - entry x i k) * ln (1 - entry reconstructed i k))) / INR 3
    + sparsity_lambda self
      * big_sum 1 (fun h => big_sum 3 (fun i => entry hidden i h) / INR 3).
Proof.
  intros self x.
  apply (cost_formula 3 2 1 self x).
  unfold well_shaped, has_shape; simpl.
  repeat split; try lia; repeat constructor.
Defined.

End CostDecomposition.

(* ================================================================== *)
(** * Properties of the driver *)

Section DriverFacts.
Local Open Scope Z_scope.

Variable P : Type.
Variable flat0 : P.
Variable update : optimizer_kind -> P -> Z -> P.

(** One iteration of the loop with [n_train_batches] bound to a non-zero
    [n], seen from the counter [k] the optimizer had before its step. *)
Lemma training_loop_step (fuel : nat) (kind : optimizer_kind) (n E k : Z)
  (w : P) (lines : list event) :
  n <> 0 ->
  training_loop update (S fuel) kind (Some n) E k w lines
  = let lines' :=
      if (k + 1) mod n =? 0 then (lines ++ [PrintEpoch (k / n + 1)])%list
      else lines in
    if k / n + 1 >=? E
    then Some (mk_run (Ok tt) lines' (k + 1) (update kind w k))
    else training_loop update fuel kind (Some n) E (k + 1)
                       (update kind w k) lines'.
Proof.
  intros Hn; simpl.
  destruct (Z.eqb_spec n 0) as [He|_]; [contradiction|].
  replace (k + 1 - 1) with k by lia.
  reflexivity.
Qed.

(** From counter [k], at distance [d] below the first step of the last
    epoch, the loop breaks right after that step. *)
Lemma training_loop_breaks (kind : optimizer_kind) (n E : Z) (d : nat) :
  0 < n ->
  forall (k : Z) (w : P) (lines : list event) (fuel : nat),
    0 <= k ->
    k + Z.of_nat d = Z.max 0 (E - 1) * n ->
    (d < fuel)%nat ->
    exists r,
      training_loop update fuel kind (Some n) E k w lines = Some r
      /\ outcome r = Ok tt
      /\ n_iter r = Z.max 0 (E - 1) * n + 1.
Proof.
  intros Hn; induction d as [|d IH]; intros k w lines fuel Hk Hd Hfuel;
    (destruct fuel as [|fuel]; [lia|]);
    rewrite training_loop_step by lia; cbv zeta.
  - assert (Hq : k / n = Z.max 0 (E - 1)).
    { replace k with (Z.max 0 (E - 1) * n) by lia.
      apply Z.div_mul; lia. }
    destruct (Z.geb_spec (k / n + 1) E) as [_|Hlt]; [|lia].
    eexists; split; [reflexivity|]; simpl; split; [reflexivity | lia].
  - assert (Hpos : 0 < E - 1) by nia.
    assert (Hq : k / n < E - 1).
    { apply Z.div_lt_upper_bound; [exact Hn | nia]. }
    destruct (Z.geb_spec (k / n + 1) E) as [Hge|_]; [lia|].
    apply IH; lia.
Qed.

Lemma choose_optimizer_known (name : string) :
  name = "gd"%string \/ name = "rmsprop"%string ->
  exists kind line, choose_optimizer name = Some (kind, line).
Proof.
  intros [-> | ->]; do 2 eexists; reflexivity.
Qed.

Lemma choose_optimizer_unknown (name : string) :
  name <> "gd"%string -> name <> "rmsprop"%string ->
  choose_optimizer name = None.
Proof.
  intros Hgd Hrms; unfold choose_optimizer.
  destruct (String.eqb_spec name "gd"); [contradiction|].
  destruct (String.eqb_spec name "rmsprop"); [contradiction|].
  reflexivity.
Qed.

(** With a known optimizer and a non-zero batch size that leaves at least
    one minibatch, [train] returns 1 after [max 0 (E - 1) * n + 1] updates,
    where [n] is the number of minibatches and [E] is [training_epochs]. *)
Lemma train_completes (rows : nat) (cfg : config) (bs : Z) (fuel : nat) :
  batch_size cfg = Some bs ->
  bs <> 0 ->
  0 < Z.of_nat rows / bs ->
  optimizer cfg = "gd"%string \/ optimizer cfg = "rmsprop"%string ->
  (Z.to_nat (Z.max 0 (training_epochs cfg - 1) * (Z.of_nat rows / bs))
   < fuel)%nat ->
  exists r,
    train flat0 update fuel rows cfg = Some r
    /\ outcome r = Ok (PyInt 1)
    /\ In PickleDump (log r)
    /\ n_iter r
       = Z.max 0 (training_epochs cfg - 1) * (Z.of_nat rows / bs) + 1.
Proof.
  intros Hbs Hnz Hn Hopt Hfuel.
  destruct (choose_optimizer_known _ Hopt) as (kind & line & Hk).
  unfold train, plan_batches; rewrite Hbs.
  destruct (Z.eqb_spec bs 0) as [|_]; [contradiction|].
  rewrite Hk.
  set (n := Z.of_nat rows / bs) in *.
  set (E := training_epochs cfg) in *.
  destruct (training_loop_breaks kind n E (Z.to_nat (Z.max 0 (E - 1) * n)) Hn
              0 flat0
              (([Print "... building the model"] ++ [PrintBatches n bs])
                 ++ [line])%list
              fuel) as (r & Hr & Hout & Hit); [lia | nia | exact Hfuel |].
  rewrite Hr, Hout.
  eexists; split; [reflexivity|]; simpl.
  split; [reflexivity|].
  split; [|exact Hit].
  apply in_or_app; right; simpl; auto.
Qed.

End DriverFacts.

Section DriverBehaviour.
Local Open Scope Z_scope.

Variable P : Type.
Variable flat0 : P.
Variable update : optimizer_kind -> P -> Z -> P.

(** C2. Where the training loop halts: with [n >= 2] minibatches per
    epoch, [E >= 1] epochs configured and a known optimizer, [train] returns
    after exactly [(E - 1) * n + 1] updates, not after [E] complete epochs.
    The break fires on the first step of epoch [E], so fewer than [E * n]
    steps are taken and only [E - 1] epochs of [n] steps are complete. *)
Theorem train_stops_inside_last_epoch (rows : nat) (cfg : config) (bs : Z)
  (fuel : nat) :
  batch_size cfg = Some bs ->
  0 < bs ->
  2 <= Z.of_nat rows / bs ->
  1 <= training_epochs cfg ->
  optimizer cfg = "gd"%string \/ optimizer cfg = "rmsprop"%string ->
  (Z.to_nat ((training_epochs cfg - 1) * (Z.of_nat rows / bs)) < fuel)%nat ->
  exists r,
    train flat0 update fuel rows cfg = Some r
    /\ outcome r = Ok (PyInt 1)
    /\ n_iter r = (training_epochs cfg - 1) * (Z.of_nat rows / bs) + 1
    /\ n_iter r < training_epochs cfg * (Z.of_nat rows / bs)
    /\ n_iter r / (Z.of_nat rows / bs) = training_epochs cfg - 1.
Proof.
  intros Hbs Hpos Hn HE Hopt Hfuel.
  assert (Hmax : Z.max 0 (training_epochs cfg - 1) = training_epochs cfg - 1)
    by lia.
  assert (Hnz : bs <> 0) by lia.
  assert (Hn0 : 0 < Z.of_nat rows / bs) by lia.
  rewrite <- Hmax in Hfuel.
  destruct (train_completes P flat0 update rows cfg bs fuel
              Hbs Hnz Hn0 Hopt Hfuel) as (r & Hr & Hout & _ & Hit).
  rewrite Hmax in Hit.
  exists r; split; [exact Hr|]; split; [exact Hout|]; split; [exact Hit|].
  rewrite Hit; split; [nia|].
  symmetry; apply (Z.div_unique _ _ _ 1); lia.
Qed.

(** C3. With [batch_size = None] and a known optimizer, [train] performs
    one update on the whole training split and then raises
    [UnboundLocalError]: the branch binds [batches_per_pass], and the loop
    body reads [n_train_batches], which that branch never binds.  Nothing
    is pickled and no value is returned. *)
Theorem train_full_batch_raises (rows : nat) (cfg : config) (fuel : nat) :
  batch_size cfg = None ->
  optimizer cfg = "gd"%string \/ optimizer cfg = "rmsprop"%string ->
  exists kind line,
    choose_optimizer (optimizer cfg) = Some (kind, line)
    /\ train flat0 update (S fuel) rows cfg
       = Some (mk_run (Raise UnboundLocalError)
                      [Print "... building the model";
                       Print "... training on the full train set"; line]
                      1 (update kind flat0 0)).
Proof.
  intros Hbs Hopt.
  destruct (choose_optimizer_known _ Hopt) as (kind & line & Hk).
  exists kind, line; split; [exact Hk|].
  unfold train, plan_batches; rewrite Hbs, Hk; reflexivity.
Qed.

(** C4. For an optimizer name other than "gd" and "rmsprop", [train]
    performs no update whatever the other arguments are: the step counter
    stays 0 and the parameters keep their initial value.  Unless the batch
    size is 0 (whose division raises before the optimizer is looked at), it
    prints 'unknown optimizer' last and returns -1, not the 1 of a
    completed run. *)
Theorem train_unknown_optimizer (rows : nat) (cfg : config) (fuel : nat) :
  optimizer cfg <> "gd"%string ->
  optimizer cfg <> "rmsprop"%string ->
  exists r,
    train flat0 update fuel rows cfg = Some r
    /\ n_iter r = 0
    /\ wrt r = flat0
    /\ outcome r <> Ok (PyInt 1)
    /\ (batch_size cfg <> Some 0 ->
        outcome r = Ok (PyInt (-1))
        /\ exists lines, log r = (lines ++ [Print "unknown optimizer"])%list).
Proof.
  intros Hgd Hrms.
  unfold train, plan_batches.
  rewrite (choose_optimizer_unknown _ Hgd Hrms).
  destruct (batch_size cfg) as [bs|].
  - destruct (Z.eqb_spec bs 0) as [->|Hbs].
    + eexists; split; [reflexivity|]; simpl.
      split; [reflexivity|]; split; [reflexivity|]; split; [discriminate|].
      intros Hzero; exfalso; apply Hzero; reflexivity.
    + eexists; split; [reflexivity|]; simpl.
      split; [reflexivity|]; split; [reflexivity|]; split; [discriminate|].
      intros _; split; [reflexivity|].
      exists [Print "... building the model";
              PrintBatches (Z.of_nat rows / bs) bs]; reflexivity.
  - eexists; split; [reflexivity|]; simpl.
    split; [reflexivity|]; split; [reflexivity|]; split; [discriminate|].
    intros _; split; [reflexivity|].
    exists [Print "... building the model";
            Print "... training on the full train set"]; reflexivity.
Qed.

(** The malformed format of the unknown-command message. *)
Lemma unknown_command_format (command : string) :
  py_format "unknown command: %" [command] = Raise ValueError.
Proof. reflexivity. Qed.

(** Without any argument [main] prints its request and returns -1, which
    the system sees as status 255. *)
Lemma main_no_argument (fuel rows : nat) (pickled : bool) :
  main flat0 update fuel rows pickled []
  = Some (Ok (PyInt (-1)), [Print "please call with at least 1 argument"])
  /\ exit_status (Ok (PyInt (-1))) = 255.
Proof. split; reflexivity. Qed.

(** [plot] without a target prints its request and returns -1. *)
Lemma main_plot_without_target (fuel rows : nat) (pickled : bool) :
  main flat0 update fuel rows pickled ["plot"%string]
  = Some (Ok (PyInt (-1)), [Print "please define what element to plot"]).
Proof. reflexivity. Qed.

(** C9. An unrecognized subcommand gets no usage message: for a first
    argument other than "train" and "plot", [main] raises [ValueError] while
    formatting 'unknown command: %' and prints nothing, neither that line
    nor the usage line after it.  The status is 1, that of an uncaught
    exception. *)
Theorem main_unknown_command_raises (fuel rows : nat) (pickled : bool)
  (command : string) (rest : list string) :
  command <> "train"%string ->
  command <> "plot"%string ->
  main flat0 update fuel rows pickled (command :: rest)
  = Some (Raise ValueError, [])
  /\ exit_status (Raise ValueError) = 1.
Proof.
  intros Htrain Hplot; split; [|reflexivity].
  unfold main.
  destruct (String.eqb_spec command "train"); [contradiction|].
  destruct (String.eqb_spec command "plot"); [contradiction|].
  rewrite unknown_command_format; reflexivity.
Qed.

(** C10. Whenever the [train] subcommand ends without an exception, [train]
    has pickled the model and returned 1, [main] hands that 1 to
    [sys.exit], and the exit status is 1, not 0.  With the default batch
    size 600 and 15 epochs this happens on every training split of at least
    600 rows, given fuel for its [14 * (rows / 600) + 1] steps. *)
Theorem train_subcommand_exits_nonzero (rows : nat) (pickled : bool)
  (rest : list string) :
  (forall fuel res lines v,
      main flat0 update fuel rows pickled ("train"%string :: rest)
      = Some (res, lines) ->
      res = Ok v ->
      v = PyInt 1 /\ In PickleDump lines
      /\ exit_status res = 1 /\ exit_status res <> 0)
  /\ (600 <= Z.of_nat rows ->
      forall fuel,
        (Z.to_nat (14 * (Z.of_nat rows / 600)) < fuel)%nat ->
        exists lines,
          main flat0 update fuel rows pickled ("train"%string :: rest)
          = Some (Ok (PyInt 1), lines)
          /\ In PickleDump lines).
Proof.
  split.
  - intros fuel res lines v Hmain Hres.
    unfold main in Hmain; simpl String.eqb in Hmain.
    unfold train, plan_batches in Hmain; simpl in Hmain.
    destruct (training_loop update fuel RmsProp (Some (Z.of_nat rows / 600))
                            15 0 flat0 _) as [r|]; [|discriminate].
    destruct (outcome r) as [[]|e]; simpl in Hmain;
      inversion Hmain; subst; [|discriminate].
    inversion H0; subst.
    repeat split; try discriminate.
    apply in_or_app; right; simpl; auto.
  - intros Hrows fuel Hfuel.
    assert (Hn : 0 < Z.of_nat rows / 600)
      by (apply Z.div_str_pos; lia).
    assert (Hopt : optimizer default_config = "gd"%string
                   \/ optimizer default_config = "rmsprop"%string)
      by (right; reflexivity).
    assert (Hnz : 600 <> 0) by lia.
    destruct (train_completes P flat0 update rows default_config 600 fuel
                eq_refl Hnz Hn Hopt Hfuel)
      as (r & Hr & Hout & Hpickle & _).
    exists (log r).
    unfold main; simpl String.eqb; cbv iota.
    rewrite Hr, Hout; split; [reflexivity | exact Hpickle].
Qed.

End DriverBehaviour.

Section ConcreteRuns.
Local Open Scope Z_scope.

Lemma train_stops_inside_last_epoch_witness :
  exists r,
    train 0%nat count_update 1163 50000 default_config = Some r
    /\ outcome r = Ok (PyInt 1)
    /\ n_iter r = 1163
    /\ n_iter r < 15 * 83
    /\ n_iter r / 83 = 14.
Proof.
  apply (train_stops_inside_last_epoch nat 0%nat count_update
           50000 default_config 600 1163).
  - reflexivity.
  - lia.
  - vm_compute; discriminate.
  - vm_compute; discriminate.
  - right; reflexivity.
  - vm_compute; lia.
Defined.

Lemma train_full_batch_raises_witness :
  exists kind line,
    choose_optimizer "gd" = Some (kind, line)
    /\ train 0%nat count_update 1 50000 (mk_config 15 None "gd")
       = Some (mk_run (Raise UnboundLocalError)
                      [Print "... building the model";
                       Print "... training on the full train set"; line]
                      1 (count_update kind 0%nat 0)).
Proof.
  apply (train_full_batch_raises nat 0%nat count_update
           50000 (mk_config 15 None "gd") 0).
  - reflexivity.
  - left; reflexivity.
Defined.

Lemma train_unknown_optimizer_witness :
  exists r,
    train 0%nat count_update 0 50000 (mk_config 15 (Some 600) "adam") = Some r
    /\ n_iter r = 0
    /\ wrt r = 0%nat
    /\ outcome r <> Ok (PyInt 1)
    /\ (Some 600 <> Some 0 ->
        outcome r = Ok (PyInt (-1))
        /\ exists lines, log r = (lines ++ [Print "unknown optimizer"])%list).
Proof.
  apply (train_unknown_optimizer nat 0%nat count_update
           50000 (mk_config 15 (Some 600) "adam") 0);
    simpl; discriminate.
Defined.

Lemma main_unknown_command_raises_witness :
  main 0%nat count_update 0 50000 true ["test"%string]
  = Some (Raise ValueError, [])
  /\ exit_status (Raise ValueError) = 1.
Proof.
  apply (main_unknown_command_raises nat 0%nat count_update 0 50000 true
           "test" []);
    discriminate.
Defined.

Lemma train_subcommand_exits_nonzero_witness :
  exists lines,
    main 0%nat count_update 1163 50000 false ["train"%string]
    = Some (Ok (PyInt 1), lines)
    /\ In PickleDump lines
    /\ exit_status (Ok (PyInt 1)) = 1
    /\ exit_status (Ok (PyInt 1)) <> 0.
Proof.
  destruct (train_subcommand_exits_nonzero nat 0%nat count_update
              50000 false []) as [Hsound Hruns].
  destruct (Hruns ltac:(vm_compute; discriminate) 1163%nat
                  ltac:(vm_compute; lia)) as (lines & Hmain & Hpickle).
  exists lines.
  destruct (Hsound 1163%nat (Ok (PyInt 1)) lines (PyInt 1) Hmain eq_refl)
    as (_ & _ & Hone & Hnz).
  repeat split; assumption.
Defined.

(** The default run on the 50000 rows of the MNIST training split: 83
    minibatches per epoch, 1163 updates, and cost reports for epochs 1 to
    14 only. *)
Example train_default_run :
  train 0%nat count_update 1163 50000 default_config
  = Some (mk_run (Ok (PyInt 1))
                 ([Print "... building the model"; PrintBatches 83 600;
                   Print "... using rmsprop"]
                    ++ map PrintEpoch [1; 2; 3; 4; 5; 6; 7; 8; 9; 10; 11; 12;
                                       13; 14]
                    ++ [PrintRanFor; PickleDump])%list
                 1163 1163%nat).
Proof. vm_compute; reflexivity. Qed.

(** With one minibatch per epoch the break falls on an epoch boundary. *)
Example train_one_batch_per_epoch :
  train 0%nat count_update 3 6 (mk_config 3 (Some 6) "gd")
  = Some (mk_run (Ok (PyInt 1))
                 [Print "... building the model"; PrintBatches 1 6;
                  Print "... using gradient descent";
                  PrintEpoch 1; PrintEpoch 2; PrintEpoch 3;
                  PrintRanFor; PickleDump]
                 3 3%nat).
Proof. vm_compute; reflexivity. Qed.

(** A training split smaller than the batch size leaves zero minibatches:
    the first pass through the loop body divides by zero. *)
Example train_short_split :
  train 0%nat count_update 5 6 (mk_config 3 (Some 7) "gd")
  = Some (mk_run (Raise ZeroDivisionError)
                 [Print "... building the model"; PrintBatches 0 7;
                  Print "... using gradient descent"]
                 1 1%nat).
Proof. vm_compute; reflexivity. Qed.

(** An unknown plot target meets the same malformed format as an unknown
    command. *)
Example plot_unknown_element :
  plot true "weights" = (Raise ValueError, []).
Proof. reflexivity. Qed.

End ConcreteRuns.

(* ================================================================== *)
(** * Further properties of the forward pass *)

Section CorruptionLevels.
Local Open Scope R_scope.

Lemma bernoulli_zero_one (p u : R) : bernoulli p u = 0 \/ bernoulli p u = 1.
Proof.
  unfold bernoulli; destruct (Rlt_dec u p); [right | left]; reflexivity.
Qed.

(** A trial of probability zero fails on every sample. *)
Lemma bernoulli_none (g : rng) (k : nat) :
  bernoulli (1 - 1) (sample_at g k) = 0.
Proof.
  unfold bernoulli.
  pose proof (sample_at_range g k).
  destruct (Rlt_dec (sample_at g k) (1 - 1)); [lra | reflexivity].
Qed.

Lemma get_corrupted_input_unfold (self : dA) (x : matrix) (level : R) :
  get_corrupted_input self x level
  = (emul (fst (binomial (theano_rng self) (shape x) (1 - level))) x,
     snd (binomial (theano_rng self) (shape x) (1 - level))).
Proof.
  unfold get_corrupted_input.
  destruct (binomial (theano_rng self) (shape x) (1 - level)); reflexivity.
Qed.

(** The mask drawn for an [r] by [c] batch: its shape, its entries and the
    cursor it leaves. *)
Lemma binomial_on_batch (g : rng) (x : matrix) (p : R) (r c : nat) :
  has_shape r c x ->
  has_shape r c (fst (binomial g (shape x) p))
  /\ (forall i k, (i < r)%nat -> (k < c)%nat ->
        entry (fst (binomial g (shape x) p)) i k
        = bernoulli p (sample_at g (i * c + k)))
  /\ snd (binomial g (shape x) p) = advance g (r * c).
Proof.
  intros Hx.
  destruct x as [|row x'].
  - destruct Hx as [Hl _]; simpl in Hl; subst r.
    unfold shape, binomial, draw; simpl.
    split; [split; [reflexivity | constructor]|].
    split; [intros i k Hi; lia | reflexivity].
  - assert (Hr : (0 < r)%nat) by (destruct Hx as [Hl _]; simpl in Hl; lia).
    unfold shape; rewrite (has_shape_ncols r c _ Hx Hr).
    destruct Hx as [Hl _]; rewrite Hl.
    split; [apply draw_shape|].
    split; [|reflexivity].
    intros i k Hi Hk.
    apply (entry_map_seq r c
             (fun i j => bernoulli p (sample_at g (i * c + j))));
      assumption.
Qed.

Lemma map2_zeros_row (f : nat -> R) (js : list nat) (row : vector) :
  (forall j, f j = 0) -> length js = length row ->
  map2 Rmult (map f js) row = repeat 0 (length row).
Proof.
  intros Hf; revert row; induction js as [|j js IH]; intros [|v row]; simpl;
    intros Hl; try discriminate; [reflexivity|].
  rewrite Hf, Rmult_0_l; apply (f_equal2 cons); [reflexivity|].
  apply IH; congruence.
Qed.

Lemma emul_zeros (f : nat -> nat -> R) (c : nat) (ix : list nat) (x : matrix) :
  (forall i j, f i j = 0) -> length ix = length x ->
  Forall (fun row => length row = c) x ->
  emul (map (fun i => map (f i) (seq 0 c)) ix) x
  = repeat (repeat 0 c) (length x).
Proof.
  intros Hf; unfold emul; revert x.
  induction ix as [|i ix IH]; intros [|row x]; simpl; intros Hl Hx;
    try discriminate; [reflexivity|].
  inversion Hx as [|? ? Hrow Hrest]; subst.
  apply (f_equal2 cons).
  - apply map2_zeros_row; [apply Hf | rewrite length_seq; reflexivity].
  - apply IH; [congruence | assumption].
Qed.

(** X1. At corruption level 1 every entry is dropped: the corrupted batch is
    the zero array of the shape of the input. *)
Theorem corrupt_one_zeroes (self : dA) (x : matrix) (r c : nat) :
  has_shape r c x ->
  fst (get_corrupted_input self x 1) = repeat (repeat 0 c) r.
Proof.
  intros [Hl Hrows].
  rewrite get_corrupted_input_unfold; cbn [fst].
  unfold binomial, draw, shape; cbn [fst].
  destruct x as [|row x].
  - simpl in Hl; subst r; reflexivity.
  - assert (Hc : ncols (row :: x) = c) by
      (apply (has_shape_ncols r c); [split; assumption | simpl in Hl; lia]).
    rewrite Hc, <- Hl.
    apply (emul_zeros
             (fun i j => bernoulli (1 - 1)
                           (sample_at (theano_rng self) (i * c + j)))).
    + intros i j; apply bernoulli_none.
    + rewrite length_seq; reflexivity.
    + exact Hrows.
Qed.

Lemma corrupt_one_zeroes_witness :
  fst (get_corrupted_input
         (mk_dA 2 1 [[0]; [0]] [0] [0; 0] (mk_rng (fun n => Z.of_nat n) 7) 0 0)
         [[1; 0]; [1 / 2; 1]] 1)
  = repeat (repeat 0 2%nat) 2%nat.
Proof.
  apply (corrupt_one_zeroes _ _ 2 2).
  split; [reflexivity | repeat constructor].
Defined.

(** X2. At any corruption level between 0 and 1 the corrupted batch has
    the shape of the input, entry [(i, k)] is the input entry times the
    trial on sample [i * c + k] of the stream, hence either the input entry
    or zero, and the stream is left [r * c] samples further. *)
Theorem corrupt_keeps_or_drops (self : dA) (x : matrix) (level : R)
  (r c : nat) :
  0 <= level <= 1 ->
  has_shape r c x ->
  has_shape r c (fst (get_corrupted_input self x level))
  /\ (forall i k, (i < r)%nat -> (k < c)%nat ->
        entry (fst (get_corrupted_input self x level)) i k
        = bernoulli (1 - level) (sample_at (theano_rng self) (i * c + k))
          * entry x i k)
  /\ (forall i k, (i < r)%nat -> (k < c)%nat ->
        entry (fst (get_corrupted_input self x level)) i k = entry x i k
        \/ entry (fst (get_corrupted_input self x level)) i k = 0)
  /\ snd (get_corrupted_input self x level)
     = advance (theano_rng self) (r * c).
Proof.
  intros _ Hx.
  destruct (binomial_on_batch (theano_rng self) x (1 - level) r c Hx)
    as (Hshape & Hentry & Hsnd).
  rewrite get_corrupted_input_unfold; cbn [fst snd].
  assert (Hformula : forall i k, (i < r)%nat -> (k < c)%nat ->
            entry (emul (fst (binomial (theano_rng self) (shape x)
                                       (1 - level))) x) i k
            = bernoulli (1 - level) (sample_at (theano_rng self) (i * c + k))
              * entry x i k).
  { intros i k Hi Hk; unfold emul.
    rewrite (entry_map2 Rmult r c) by assumption.
    rewrite Hentry by assumption; reflexivity. }
  split; [apply has_shape_map2; assumption|].
  split; [exact Hformula|].
  split; [|exact Hsnd].
  intros i k Hi Hk; rewrite (Hformula i k Hi Hk).
  destruct (bernoulli_zero_one (1 - level)
              (sample_at (theano_rng self) (i * c + k))) as [-> | ->];
    [right | left]; lra.
Qed.

Lemma corrupt_keeps_or_drops_witness :
  let self :=
    mk_dA 2 1 [[0]; [0]] [0] [0; 0] (mk_rng (fun n => Z.of_nat n) 7)
          (3 / 10) 0 in
  let x := [[1; 0]; [1 / 2; 1]] in
  has_shape 2 2 (fst (get_corrupted_input self x (3 / 10)))
  /\ (forall i k, (i < 2)%nat -> (k < 2)%nat ->
        entry (fst (get_corrupted_input self x (3 / 10))) i k
        = bernoulli (1 - 3 / 10) (sample_at (theano_rng self) (i * 2 + k))
          * entry x i k)
  /\ (forall i k, (i < 2)%nat -> (k < 2)%nat ->
        entry (fst (get_corrupted_input self x (3 / 10))) i k = entry x i k
        \/ entry (fst (get_corrupted_input self x (3 / 10))) i k = 0)
  /\ snd (get_corrupted_input self x (3 / 10))
     = advance (theano_rng self) (2 * 2).
Proof.
  intros self x.
  apply (corrupt_keeps_or_drops self x (3 / 10) 2 2).
  - lra.
  - split; [reflexivity | repeat constructor].
Defined.

(** Without corruption the corrupted node is the batch itself. *)
Lemma tilde_x_without_corruption (self : dA) (x : matrix) (r c : nat) :
  corruption_level self = 0 -> has_shape r c x -> tilde_x self x = x.
Proof.
  intros Hlevel [Hl Hrows].
  unfold tilde_x; rewrite get_corrupted_input_unfold, Hlevel; cbn [fst].
  unfold binomial, draw, shape; cbn [fst].
  destruct x as [|row x]; [reflexivity|].
  assert (Hc : ncols (row :: x) = c) by
    (apply (has_shape_ncols r c); [split; assumption | simpl in Hl; lia]).
  rewrite Hc.
  apply (emul_ones
           (fun i j => bernoulli (1 - 0)
                         (sample_at (theano_rng self) (i * c + j)))).
  - intros i j; apply bernoulli_one.
  - rewrite length_seq; reflexivity.
  - exact Hrows.
Qed.

(** X3. A model built with corruption level 0 is a plain auto-encoder: the
    hidden code is the encoding of the batch itself, and the cost does not
    depend on the state of the random stream. *)
Theorem no_corruption_deterministic (self : dA) (x : matrix) (r c : nat) :
  corruption_level self = 0 ->
  has_shape r c x ->
  y self x = get_hidden_values self x
  /\ z self x = get_reconstructed_input self (get_hidden_values self x)
  /\ (forall g, cost (set_theano_rng self g) x = cost self x).
Proof.
  intros Hlevel Hx.
  pose proof (tilde_x_without_corruption self x r c Hlevel Hx) as Ht.
  assert (Hy : y self x = get_hidden_values self x)
    by (unfold y; rewrite Ht; reflexivity).
  split; [exact Hy|].
  split; [unfold z; rewrite Hy; reflexivity|].
  intros g.
  pose proof (tilde_x_without_corruption (set_theano_rng self g) x r c
                Hlevel Hx) as Htg.
  unfold cost, L, L1_hidden_penalty, z, y.
  rewrite Ht, Htg; reflexivity.
Qed.

Lemma no_corruption_deterministic_witness :
  let self :=
    mk_dA 2 1 [[1]; [-2]] [0] [0; 3] (mk_rng (fun n => Z.of_nat n) 0)
          0 (8 / 100) in
  let x := [[0; 1]; [1 / 2; 1]; [1; 0]] in
  y self x = get_hidden_values self x
  /\ z self x = get_reconstructed_input self (get_hidden_values self x)
  /\ (forall g, cost (set_theano_rng self g) x = cost self x).
Proof.
  intros self x.
  apply (no_corruption_deterministic self x 3 2).
  - reflexivity.
  - split; [reflexivity | repeat constructor].
Defined.

End CorruptionLevels.

Section ForwardPass.
Local Open Scope R_scope.

Lemma big_sum_zero (n : nat) (f : nat -> R) :
  (forall i, (i < n)%nat -> f i = 0) -> big_sum n f = 0.
Proof.
  revert f; induction n as [|n IH]; intros f Hf; [reflexivity|].
  rewrite big_sum_S, (Hf 0%nat) by lia.
  rewrite IH; [lra|].
  intros i Hi; apply Hf; lia.
Qed.

(** X4. Encoding an [m] by [nv] batch against [nv] by [nh] weights gives an
    [m] by [nh] array whose entry [(i, h)] is the sigmoid of row [i] of the
    batch times column [h] of [W], plus [b_h], and lies strictly between 0
    and 1. *)
Theorem encode_entry (m nv nh : nat) (self : dA) (input : matrix) :
  has_shape m nv input -> has_shape nv nh (W self) ->
  length (b self) = nh -> (0 < nv)%nat ->
  has_shape m nh (get_hidden_values self input)
  /\ (forall i h, (i < m)%nat -> (h < nh)%nat ->
        entry (get_hidden_values self input) i h
        = sigmoid (big_sum nv (fun k => entry input i k * entry (W self) k h)
                   + nth h (b self) 0)
        /\ 0 < entry (get_hidden_values self input) i h < 1).
Proof.
  intros Hin HW Hb Hv.
  assert (Hdot : has_shape m nh (dot input (W self))).
  { rewrite <- (has_shape_ncols nv nh (W self) HW Hv).
    apply has_shape_dot, Hin. }
  assert (Hsum : has_shape m nh (add_bias (dot input (W self)) (b self)))
    by (apply has_shape_add_bias; assumption).
  split; [apply has_shape_emap; exact Hsum|].
  intros i h Hi Hh.
  unfold get_hidden_values.
  rewrite (entry_emap sigmoid m nh) by assumption.
  rewrite (entry_add_bias m nh) by assumption.
  rewrite (entry_dot m nv nh) by assumption.
  split; [reflexivity | apply sigmoid_range].
Qed.

Lemma encode_entry_witness :
  let self :=
    mk_dA 2 1 [[1]; [-2]] [1 / 4] [0; 3] (mk_rng (fun n => Z.of_nat n) 0)
          0 0 in
  let input := [[0; 1]; [1 / 2; 1]; [1; 0]] in
  has_shape 3 1 (get_hidden_values self input)
  /\ (forall i h, (i < 3)%nat -> (h < 1)%nat ->
        entry (get_hidden_values self input) i h
        = sigmoid (big_sum 2 (fun k => entry input i k * entry (W self) k h)
                   + nth h (b self) 0)
        /\ 0 < entry (get_hidden_values self input) i h < 1).
Proof.
  intros self input.
  apply (encode_entry 3 2 1 self input).
  - split; [reflexivity | repeat constructor].
  - split; [reflexivity | repeat constructor].
  - reflexivity.
  - lia.
Defined.

(** X5. On well-shaped inputs every node of the graph has the shape its role
    requires: the corrupted batch and the reconstruction are [m] by [nv],
    the hidden code is [m] by [nh], the decode matrix is [nh] by [nv], and
    there is one loss per example. *)
Theorem forward_shapes (m nv nh : nat) (self : dA) (x : matrix) :
  well_shaped m nv nh self x ->
  has_shape m nv (tilde_x self x)
  /\ has_shape m nh (y self x)
  /\ has_shape nh nv (W_prime self)
  /\ has_shape m nv (z self x)
  /\ length (L self x) = m
  /\ length (mean_axis0 (y self x)) = nh.
Proof.
  intros Hs.
  pose proof (y_shape m nv nh self x Hs) as Hy.
  split; [apply (tilde_x_shape m nv nh self x Hs)|].
  split; [exact Hy|].
  split; [apply (W_prime_shape m nv nh self x Hs)|].
  split; [apply (z_shape m nv nh self x Hs)|].
  split; [apply (L_length m nv nh self x Hs)|].
  unfold mean_axis0; rewrite length_map, length_seq.
  apply (has_shape_ncols m nh _ Hy); apply Hs.
Qed.

Lemma forward_shapes_witness :
  let self :=
    mk_dA 2 1 [[1]; [-2]] [0] [0; 3] (mk_rng (fun n => Z.of_nat n) 0)
          (3 / 10) (8 / 100) in
  let x := [[0; 1]; [1 / 2; 1]; [1; 0]] in
  has_shape 3 2 (tilde_x self x)
  /\ has_shape 3 1 (y self x)
  /\ has_shape 1 2 (W_prime self)
  /\ has_shape 3 2 (z self x)
  /\ length (L self x) = 3%nat
  /\ length (mean_axis0 (y self x)) = 1%nat.
Proof.
  intros self x.
  apply (forward_shapes 3 2 1 self x).
  unfold well_shaped, has_shape; simpl.
  repeat split; try lia; repeat constructor.
Defined.

(** X6. At corruption level 1 the encoder sees a zero batch: every example
    gets the hidden code [sigmoid (b_h)], whatever the batch and the
    weights are. *)
Theorem full_corruption_hides_input (m nv nh : nat) (self : dA) (x : matrix) :
  well_shaped m nv nh self x ->
  corruption_level self = 1 ->
  forall i h, (i < m)%nat -> (h < nh)%nat ->
    entry (y self x) i h = sigmoid (nth h (b self) 0).
Proof.
  intros Hs Hlevel i h Hi Hh.
  rewrite (y_entry m nv nh self x Hs i h Hi Hh).
  rewrite big_sum_zero; [f_equal; lra|].
  intros k Hk.
  rewrite (tilde_x_entry m nv nh self x Hs i k Hi Hk), Hlevel.
  rewrite bernoulli_none; lra.
Qed.

Lemma full_corruption_hides_input_witness :
  let self :=
    mk_dA 2 1 [[1]; [-2]] [1 / 4] [0; 3] (mk_rng (fun n => Z.of_nat n) 0)
          1 (8 / 100) in
  let x := [[0; 1]; [1 / 2; 1]; [1; 0]] in
  entry (y self x) 2 0 = sigmoid (nth 0 (b self) 0).
Proof.
  intros self x.
  apply (full_corruption_hides_input 3 2 1 self x).
  - unfold well_shaped, has_shape; simpl.
    repeat split; try lia; repeat constructor.
  - reflexivity.
  - lia.
  - lia.
Defined.

End ForwardPass.

Section ConstructionCases.
Local Open Scope Z_scope.

Variable RandomStreams : Z -> rng.

(** Case analysis of [init] on its optional arguments and on the tests on
    the dimensions. *)
Ltac init_cases theano_rng W bhid bvis :=
  unfold init, initial_W, zeros, uniform, draw, randint;
  destruct theano_rng; destruct W; destruct bvis; destruct bhid;
  cbn [bind];
  repeat match goal with
         | |- context [Z.eqb ?a ?c] => destruct (Z.eqb_spec a c)
         | |- context [Z.ltb ?a ?c] => destruct (Z.ltb_spec a c)
         end;
  cbn [bind orb].

(** X7. The constructor raises exactly when it has to allocate with dimensions
    it cannot use: [W] is missing and the dimensions sum to zero or one of
    them is negative, or a bias is missing and its length is negative.
    Supplied tensors are never checked against the dimensions. *)
Theorem init_raises_iff (numpy_rng : rng) (theano_rng : option rng)
  (nv nh : Z) (W : option matrix) (bhid bvis : option vector)
  (level lambda : R) :
  (exists e,
      init RandomStreams numpy_rng theano_rng nv nh W bhid bvis level lambda
      = Raise e)
  <-> (W = None /\ (nv + nh = 0 \/ nv < 0 \/ nh < 0))
      \/ (bvis = None /\ nv < 0)
      \/ (bhid = None /\ nh < 0).
Proof.
  init_cases theano_rng W bhid bvis;
    (split;
     [ intros [exc He]; try discriminate He;
       first [ left; split; [reflexivity | lia]
             | right; left; split; [reflexivity | lia]
             | right; right; split; [reflexivity | lia] ]
     | intros Hcase; try (eexists; reflexivity);
       exfalso;
       destruct Hcase as [[Hn Hd] | [[Hn Hd] | [Hn Hd]]];
       try discriminate Hn; lia ]).
Qed.

(** X8. Whenever the constructor succeeds, the object records the dimensions
    as given, shares every supplied tensor as it is (the hidden bias as [b],
    the visible bias as [b_prime]), fills a missing bias with zeros, and has
    taken from [numpy_rng] one draw for the seed of a missing [theano_rng]
    and one draw per entry of a missing [W]. *)
Theorem init_uses_supplied_tensors (numpy_rng : rng) (stream : option rng)
  (nv nh : Z) (W0 : option matrix) (bhid bvis : option vector)
  (level lambda : R) (self : dA) (g : rng) :
  init RandomStreams numpy_rng stream nv nh W0 bhid bvis level lambda
  = Ok (self, g) ->
  n_visible self = nv /\ n_hidden self = nh
  /\ (forall w, W0 = Some w -> W self = w)
  /\ (forall v, bhid = Some v -> b self = v)
  /\ (forall v, bvis = Some v -> b_prime self = v)
  /\ (bhid = None -> b self = repeat 0%R (Z.to_nat nh))
  /\ (bvis = None -> b_prime self = repeat 0%R (Z.to_nat nv))
  /\ (forall t, stream = Some t -> theano_rng self = t)
  /\ raw g = raw numpy_rng
  /\ pos g
     = (pos numpy_rng
        + (match stream with Some _ => 0 | None => 1 end)
        + (match W0 with
           | Some _ => 0
           | None => Z.to_nat nv * Z.to_nat nh
           end))%nat.
Proof.
  init_cases stream W0 bhid bvis;
    intros Hinit; try discriminate Hinit;
    injection Hinit as <- <-; cbn;
    repeat split; intros; try discriminate; try congruence; try lia.
Qed.

End ConstructionCases.

Section ConstructionRun.
Local Open Scope Z_scope.

Lemma init_uses_supplied_tensors_witness :
  let numpy_rng := mk_rng (fun n => Z.of_nat (3 * n + 1)) 5 in
  let self :=
    mk_dA 784 3 [[1; 2; 3]]%R [0; 0; 7]%R [1]%R
          (mk_rng (fun n => Z.of_nat n) 0) (3 / 10)%R (8 / 100)%R in
  n_visible self = 784 /\ n_hidden self = 3
  /\ (forall w, Some [[1; 2; 3]]%R = Some w -> W self = w)
  /\ (forall v, Some [0; 0; 7]%R = Some v -> b self = v)
  /\ (forall v, Some [1]%R = Some v -> b_prime self = v)
  /\ (Some [0; 0; 7]%R = None -> b self = repeat 0%R (Z.to_nat 3))
  /\ (Some [1]%R = None -> b_prime self = repeat 0%R (Z.to_nat 784))
  /\ (forall t, Some (mk_rng (fun n => Z.of_nat n) 0) = Some t ->
        theano_rng self = t)
  /\ raw numpy_rng = raw numpy_rng
  /\ pos numpy_rng = (pos numpy_rng + 0 + 0)%nat.
Proof.
  intros numpy_rng self.
  apply (init_uses_supplied_tensors
           (fun seed => mk_rng (fun n => (seed + Z.of_nat n)%Z) 0)
           numpy_rng (Some (mk_rng (fun n => Z.of_nat n) 0)) 784 3
           (Some [[1; 2; 3]]%R) (Some [0; 0; 7]%R) (Some [1]%R)
           (3 / 10)%R (8 / 100)%R self numpy_rng).
  reflexivity.
Defined.

End ConstructionRun.

(* ================================================================== *)
(** * The layout of the flat parameter vector *)

Section FlatLayout.
Local Open Scope R_scope.

Lemma firstn_length_app {A : Type} (u v : list A) :
  firstn (length u) (u ++ v) = u.
Proof.
  induction u as [|a u IH]; simpl; [reflexivity | rewrite IH; reflexivity].
Qed.

Lemma skipn_length_app {A : Type} (u v : list A) :
  skipn (length u) (u ++ v) = v.
Proof.
  induction u as [|a u IH]; simpl; [reflexivity | exact IH].
Qed.

Lemma length_flatten (r c : nat) (m : matrix) :
  has_shape r c m -> length (flatten m) = (r * c)%nat.
Proof.
  intros [Hl Hrows]; subst r; unfold flatten.
  induction Hrows as [|row m Hrow Hrows IH]; [reflexivity|].
  simpl; rewrite length_app, IH, Hrow; reflexivity.
Qed.

(** Cutting the flattened array back into rows returns the array. *)
Lemma reshape_flatten (r c : nat) (m : matrix) :
  has_shape r c m -> reshape r c (flatten m) = m.
Proof.
  intros [Hl Hrows]; subst r; unfold flatten.
  induction Hrows as [|row m Hrow Hrows IH]; [reflexivity|].
  simpl; subst c.
  rewrite firstn_length_app, skipn_length_app, IH; reflexivity.
Qed.

Lemma reshape_shape (r c : nat) (v : vector) :
  length v = (r * c)%nat -> has_shape r c (reshape r c v).
Proof.
  revert v; induction r as [|r IH]; intros v Hv.
  - split; [reflexivity | constructor].
  - assert (Hrest : length (skipn c v) = (r * c)%nat)
      by (rewrite length_skipn; simpl in Hv; lia).
    destruct (IH _ Hrest) as [Hl Hrows].
    split; simpl; [rewrite Hl; reflexivity|].
    constructor; [|exact Hrows].
    rewrite length_firstn; simpl in Hv; lia.
Qed.

Lemma flatten_reshape (r c : nat) (v : vector) :
  length v = (r * c)%nat -> flatten (reshape r c v) = v.
Proof.
  unfold flatten; revert v; induction r as [|r IH]; intros v Hv.
  - destruct v; [reflexivity | discriminate].
  - simpl; rewrite IH by (rewrite length_skipn; simpl in Hv; lia).
    apply firstn_skipn.
Qed.

Variable g_params_da : matrix -> matrix * vector * vector.

(** X9. The vector [d_loss_wrt_pars] returns is laid out like the parameter
    vector: when the three gradients have the shapes of [W], [b] and
    [b_prime], it has the length of [flat], and the views of the template
    cut it back into exactly those three gradients, so entry by entry each
    parameter meets its own gradient. *)
Theorem gradient_layout_matches_views (nv nh : nat)
  (parameters : vector) (inputs : matrix) (targets : vector)
  (g_W : matrix) (g_b_hidden g_b_vis : vector) :
  g_params_da inputs = (g_W, g_b_hidden, g_b_vis) ->
  has_shape nv nh g_W -> length g_b_hidden = nh -> length g_b_vis = nv ->
  length (d_loss_wrt_pars g_params_da parameters inputs targets)
  = (nv * nh + nh + nv)%nat
  /\ views nv nh (d_loss_wrt_pars g_params_da parameters inputs targets)
     = (g_W, g_b_hidden, g_b_vis).
Proof.
  intros Hg HW Hb Hv.
  pose proof (length_flatten nv nh g_W HW) as HlW.
  unfold d_loss_wrt_pars; rewrite Hg.
  split; [rewrite !length_app; lia|].
  unfold views.
  assert (H1 : firstn (nv * nh) (flatten g_W ++ g_b_hidden ++ g_b_vis)
               = flatten g_W)
    by (rewrite <- HlW; apply firstn_length_app).
  assert (H2 : skipn (nv * nh) (flatten g_W ++ g_b_hidden ++ g_b_vis)
               = g_b_hidden ++ g_b_vis)
    by (rewrite <- HlW; apply skipn_length_app).
  assert (H3 : skipn (nv * nh + nh) (flatten g_W ++ g_b_hidden ++ g_b_vis)
               = g_b_vis).
  { rewrite app_assoc.
    replace (nv * nh + nh)%nat with (length (flatten g_W ++ g_b_hidden))
      by (rewrite length_app; lia).
    apply skipn_length_app. }
  rewrite H1, H2, H3, (reshape_flatten nv nh g_W HW).
  rewrite <- Hb at 1; rewrite firstn_length_app.
  rewrite <- Hv, firstn_all; reflexivity.
Qed.

(** X10. The three views cover the flat vector without gap or overlap: for a
    vector of length [nv * nh + nh + nv] they have the shapes of [W], [b]
    and [b_prime], and laying them out again in the order of
    [d_loss_wrt_pars] gives the vector back. *)
Theorem views_partition_flat (nv nh : nat) (flat : vector) :
  length flat = (nv * nh + nh + nv)%nat ->
  let '(Weights, bias_hidden, bias_visible) := views nv nh flat in
  has_shape nv nh Weights
  /\ length bias_hidden = nh
  /\ length bias_visible = nv
  /\ flatten Weights ++ bias_hidden ++ bias_visible = flat.
Proof.
  intros Hlen; unfold views.
  assert (HlW : length (firstn (nv * nh) flat) = (nv * nh)%nat)
    by (rewrite length_firstn; lia).
  split; [apply reshape_shape; exact HlW|].
  split; [rewrite length_firstn, length_skipn; lia|].
  split; [rewrite length_firstn, length_skipn; lia|].
  rewrite (flatten_reshape nv nh _ HlW).
  rewrite <- (firstn_skipn (nv * nh) flat) at 4.
  f_equal.
  rewrite <- (firstn_skipn nh (skipn (nv * nh) flat)) at 2.
  f_equal.
  rewrite skipn_skipn, (Nat.add_comm nh).
  apply firstn_all2; rewrite length_skipn; lia.
Qed.

End FlatLayout.

Lemma gradient_layout_matches_views_witness :
  let g := fun _ : matrix =>
             ([[1; 2]; [3; 4]; [5; 6]], [7; 8], [9; 10; 11])%R in
  length (d_loss_wrt_pars g [] [[0%R]] []) = (3 * 2 + 2 + 3)%nat
  /\ views 3 2 (d_loss_wrt_pars g [] [[0%R]] [])
     = ([[1; 2]; [3; 4]; [5; 6]], [7; 8], [9; 10; 11])%R.
Proof.
  intros g.
  apply (gradient_layout_matches_views g 3 2 [] [[0%R]] []).
  - reflexivity.
  - split; [reflexivity | repeat constructor].
  - reflexivity.
  - reflexivity.
Defined.

Lemma views_partition_flat_witness :
  let flat := [1; 2; 3; 4; 5; 6; 7; 8; 9; 10; 11]%R in
  let '(Weights, bias_hidden, bias_visible) := views 3 2 flat in
  has_shape 3 2 Weights
  /\ length bias_hidden = 2%nat
  /\ length bias_visible = 3%nat
  /\ (flatten Weights ++ bias_hidden ++ bias_visible = flat)%list.
Proof.
  intros flat.
  apply (views_partition_flat 3 2 flat).
  reflexivity.
Defined.

(* ================================================================== *)
(** * Further properties of the driver *)

Section LoopTraces.
Local Open Scope Z_scope.

Variable P : Type.
Variable flat0 : P.
Variable update : optimizer_kind -> P -> Z -> P.

(** What holds of the loop however it ends: the counter has moved, the
    parameters are the updates applied in order, the lines printed before
    the loop are kept and only epoch reports are added, and the way it ends
    is fixed by the binding of [n_train_batches]. *)
Lemma training_loop_invariant (kind : optimizer_kind) (ntb : option Z)
  (E : Z) :
  forall (fuel : nat) (k : Z) (w : P) (lines : list event) (r : run P unit),
    training_loop update fuel kind ntb E k w lines = Some r ->
    k < n_iter r
    /\ wrt r = apply_updates update kind w k (Z.to_nat (n_iter r - k))
    /\ (forall ev, In ev (log r) -> In ev lines \/ exists e, ev = PrintEpoch e)
    /\ (forall ev, In ev lines -> In ev (log r))
    /\ outcome r = match ntb with
                   | None => Raise UnboundLocalError
                   | Some n =>
                       if n =? 0 then Raise ZeroDivisionError else Ok tt
                   end.
Proof.
  induction fuel as [|fuel IH]; intros k w lines r Hrun; [discriminate|].
  assert (Hone : forall v, apply_updates update kind v k (Z.to_nat (k + 1 - k))
                           = update kind v k).
  { intros v; replace (k + 1 - k) with 1 by lia; reflexivity. }
  destruct ntb as [n|].
  - destruct (Z.eqb_spec n 0) as [Hz|Hnz].
    + subst n; simpl in Hrun; injection Hrun as <-; simpl.
      repeat split; try lia; auto.
    + rewrite training_loop_step in Hrun by exact Hnz; cbv zeta in Hrun.
      set (lines' := if (k + 1) mod n =? 0
                     then (lines ++ [PrintEpoch (k / n + 1)])%list
                     else lines) in *.
      assert (Hkeep : forall ev, In ev lines -> In ev lines').
      { intros ev Hev; unfold lines'.
        destruct ((k + 1) mod n =? 0); [apply in_or_app; left|]; exact Hev. }
      assert (Hnew : forall ev, In ev lines' ->
                                In ev lines \/ exists e, ev = PrintEpoch e).
      { intros ev Hev; unfold lines' in Hev.
        destruct ((k + 1) mod n =? 0); [|left; exact Hev].
        apply in_app_or in Hev; destruct Hev as [Hev | [<- | []]];
          [left; exact Hev | right; eexists; reflexivity]. }
      destruct (k / n + 1 >=? E).
      * injection Hrun as <-; simpl.
        repeat split; try lia; auto.
      * destruct (IH _ _ _ _ Hrun) as (Hlt & Hw & Hlog & Hpre & Hout).
        split; [lia|].
        split.
        { rewrite Hw.
          replace (Z.to_nat (n_iter r - k))
            with (S (Z.to_nat (n_iter r - (k + 1)))) by lia.
          reflexivity. }
        split.
        { intros ev Hev; destruct (Hlog ev Hev) as [Hin | Hep];
            [apply Hnew; exact Hin | right; exact Hep]. }
        split; [intros ev Hev; apply Hpre, Hkeep, Hev | exact Hout].
  - simpl in Hrun; injection Hrun as <-; simpl.
    repeat split; try lia; auto.
Qed.

(** The step before a multiple of [n] lies in the epoch that the multiple
    completes. *)
Lemma epoch_of_boundary (n k : Z) :
  0 < n -> (k + 1) mod n = 0 -> k / n + 1 = (k + 1) / n.
Proof.
  intros Hn Hm.
  pose proof (Z.div_mod (k + 1) n ltac:(lia)) as Hdm; rewrite Hm in Hdm.
  assert (Hq : k / n = (k + 1) / n - 1).
  { symmetry; apply (Z.div_unique _ _ _ (n - 1)); lia. }
  lia.
Qed.

(** The epoch reports of a run that starts at counter [k] and breaks at the
    first step of the last epoch: one per multiple of [n] among the counter
    values reached. *)
Lemma training_loop_reports (kind : optimizer_kind) (n E : Z) (d : nat) :
  0 < n ->
  forall (k : Z) (w : P) (lines : list event) (fuel : nat),
    0 <= k ->
    k + Z.of_nat d = Z.max 0 (E - 1) * n ->
    (d < fuel)%nat ->
    exists r,
      training_loop update fuel kind (Some n) E k w lines = Some r
      /\ outcome r = Ok tt
      /\ n_iter r = Z.max 0 (E - 1) * n + 1
      /\ (forall e, In (PrintEpoch e) (log r) <->
            In (PrintEpoch e) lines
            \/ exists j, k < j <= Z.max 0 (E - 1) * n + 1
                         /\ j mod n = 0 /\ e = j / n).
Proof.
  intros Hn.
  assert (Hstep : forall k lines e, 
             In (PrintEpoch e)
                (if (k + 1) mod n =? 0
                 then (lines ++ [PrintEpoch (k / n + 1)])%list else lines)
             <-> In (PrintEpoch e) lines
                 \/ ((k + 1) mod n = 0 /\ e = (k + 1) / n)).
  { intros k lines e.
    destruct (Z.eqb_spec ((k + 1) mod n) 0) as [Hm|Hm].
    - rewrite in_app_iff, (epoch_of_boundary n k Hn Hm); simpl.
      split.
      + intros [H | [H | []]]; [left; exact H|].
        injection H as <-; right; split; [exact Hm | reflexivity].
      + intros [H | [_ ->]]; [left; exact H | right; left; reflexivity].
    - split; [intros H; left; exact H|].
      intros [H | [Hm' _]]; [exact H | contradiction]. }
  induction d as [|d IH]; intros k w lines fuel Hk Hd Hfuel;
    (destruct fuel as [|fuel]; [lia|]);
    rewrite training_loop_step by lia; cbv zeta.
  - assert (Hq : k / n = Z.max 0 (E - 1)).
    { replace k with (Z.max 0 (E - 1) * n) by lia.
      apply Z.div_mul; lia. }
    destruct (Z.geb_spec (k / n + 1) E) as [_|Hlt]; [|lia].
    eexists; split; [reflexivity|]; simpl.
    split; [reflexivity|]; split; [lia|].
    intros e; rewrite Hstep.
    split.
    + intros [H | [Hm ->]]; [left; exact H|].
      right; exists (k + 1); repeat split; try lia; exact Hm.
    + intros [H | (j & Hj & Hm & ->)]; [left; exact H|].
      assert (j = k + 1) by lia; subst j.
      right; split; [exact Hm | reflexivity].
  - assert (Hpos : 0 < E - 1) by nia.
    assert (Hq : k / n < E - 1).
    { apply Z.div_lt_upper_bound; [exact Hn | nia]. }
    destruct (Z.geb_spec (k / n + 1) E) as [Hge|_]; [lia|].
    destruct (IH (k + 1) (update kind w k)
                 (if (k + 1) mod n =? 0
                  then (lines ++ [PrintEpoch (k / n + 1)])%list else lines)
                 fuel) as (r & Hr & Hout & Hit & Hlog); try lia.
    exists r; split; [exact Hr|]; split; [exact Hout|]; split; [exact Hit|].
    intros e; rewrite Hlog, Hstep.
    split.
    + intros [[H | [Hm ->]] | (j & Hj & Hm & ->)].
      * left; exact H.
      * right; exists (k + 1); repeat split; try lia; exact Hm.
      * right; exists j; repeat split; try lia; exact Hm.
    + intros [H | (j & Hj & Hm & ->)]; [left; left; exact H|].
      destruct (Z.eq_dec j (k + 1)) as [->|Hne].
      * left; right; split; [exact Hm | reflexivity].
      * right; exists j; repeat split; try lia; exact Hm.
Qed.

(** The multiples of [n] up to a bound, seen as epoch numbers. *)
Lemma multiples_as_epochs (n e bound : Z) :
  0 < n ->
  (exists j, 0 < j <= bound /\ j mod n = 0 /\ e = j / n)
  <-> 1 <= e /\ e * n <= bound.
Proof.
  intros Hn; split.
  - intros (j & Hj & Hm & ->).
    pose proof (Z.div_mod j n ltac:(lia)) as Hdm; rewrite Hm in Hdm.
    split; nia.
  - intros [He Hb]; exists (e * n).
    split; [nia|].
    split; [apply Z.mod_mul; lia | symmetry; apply Z.div_mul; lia].
Qed.

Lemma choose_optimizer_prints (name : string) (kind : optimizer_kind)
  (line : event) :
  choose_optimizer name = Some (kind, line) -> exists s, line = Print s.
Proof.
  unfold choose_optimizer.
  destruct (String.eqb name "gd"); [|destruct (String.eqb name "rmsprop")];
    intros H; inversion H; eexists; reflexivity.
Qed.

(** A completed run in full: the return value, the number of updates, the
    parameters, and the epochs whose cost is reported. *)
Lemma train_trace (rows : nat) (cfg : config) (bs : Z) (fuel : nat)
  (kind : optimizer_kind) (line : event) :
  batch_size cfg = Some bs ->
  bs <> 0 ->
  0 < Z.of_nat rows / bs ->
  choose_optimizer (optimizer cfg) = Some (kind, line) ->
  (Z.to_nat (Z.max 0 (training_epochs cfg - 1) * (Z.of_nat rows / bs))
   < fuel)%nat ->
  exists r,
    train flat0 update fuel rows cfg = Some r
    /\ outcome r = Ok (PyInt 1)
    /\ n_iter r
       = Z.max 0 (training_epochs cfg - 1) * (Z.of_nat rows / bs) + 1
    /\ wrt r = apply_updates update kind flat0 0 (Z.to_nat (n_iter r))
    /\ (forall e, In (PrintEpoch e) (log r) <->
          1 <= e
          /\ e * (Z.of_nat rows / bs)
             <= Z.max 0 (training_epochs cfg - 1) * (Z.of_nat rows / bs) + 1).
Proof.
  intros Hbs Hnz Hn Hk Hfuel.
  destruct (choose_optimizer_prints _ _ _ Hk) as [s ->].
  unfold train, plan_batches; rewrite Hbs.
  destruct (Z.eqb_spec bs 0) as [|_]; [contradiction|].
  rewrite Hk.
  set (n := Z.of_nat rows / bs) in *.
  set (E := training_epochs cfg) in *.
  set (lines := (([Print "... building the model"] ++ [PrintBatches n bs])
                   ++ [Print s])%list).
  destruct (training_loop_reports kind n E (Z.to_nat (Z.max 0 (E - 1) * n)) Hn
              0 flat0 lines fuel) as (r & Hr & Hout & Hit & Hlog);
    [lia | nia | exact Hfuel |].
  destruct (training_loop_invariant kind (Some n) E fuel 0 flat0 lines r Hr)
    as (_ & Hw & _).
  rewrite Hr, Hout.
  eexists; split; [reflexivity|]; simpl.
  split; [reflexivity|]; split; [exact Hit|].
  split; [rewrite Hw, Z.sub_0_r; reflexivity|].
  intros e.
  rewrite in_app_iff, Hlog, <- (multiples_as_epochs n e _ Hn).
  split.
  - intros [[Hin | Hj] | Hin]; [| exact Hj |].
    + unfold lines in Hin; simpl in Hin.
      destruct Hin as [H | [H | [H | []]]]; discriminate H.
    + simpl in Hin; destruct Hin as [H | [H | []]]; discriminate H.
  - intros Hj; left; right; exact Hj.
Qed.

End LoopTraces.

Section TrainBehaviour.
Local Open Scope Z_scope.

Variable P : Type.
Variable flat0 : P.
Variable update : optimizer_kind -> P -> Z -> P.

(** X11. With at least two minibatches per epoch, a completed run reports the
    cost of the training split for the epochs 1 to [training_epochs - 1]
    and for no other: the cost of the last epoch is never reported. *)
Theorem train_reports_all_but_last_epoch (rows : nat) (cfg : config)
  (bs : Z) (fuel : nat) :
  batch_size cfg = Some bs ->
  0 < bs ->
  2 <= Z.of_nat rows / bs ->
  1 <= training_epochs cfg ->
  optimizer cfg = "gd"%string \/ optimizer cfg = "rmsprop"%string ->
  (Z.to_nat ((training_epochs cfg - 1) * (Z.of_nat rows / bs)) < fuel)%nat ->
  exists r,
    train flat0 update fuel rows cfg = Some r
    /\ outcome r = Ok (PyInt 1)
    /\ (forall e, In (PrintEpoch e) (log r) <->
          1 <= e <= training_epochs cfg - 1)
    /\ ~ In (PrintEpoch (training_epochs cfg)) (log r).
Proof.
  intros Hbs Hpos Hn HE Hopt Hfuel.
  destruct (choose_optimizer_known _ Hopt) as (kind & line & Hk).
  assert (Hmax : Z.max 0 (training_epochs cfg - 1) = training_epochs cfg - 1)
    by lia.
  rewrite <- Hmax in Hfuel.
  assert (Hnz : bs <> 0) by lia.
  assert (Hn0 : 0 < Z.of_nat rows / bs) by lia.
  destruct (train_trace P flat0 update rows cfg bs fuel kind line
              Hbs Hnz Hn0 Hk Hfuel) as (r & Hr & Hout & _ & _ & Hlog).
  rewrite Hmax in Hlog.
  assert (Hiff : forall e, In (PrintEpoch e) (log r) <->
                           1 <= e <= training_epochs cfg - 1).
  { intros e; rewrite Hlog; split; intros [H1 H2]; split; nia. }
  exists r; split; [exact Hr|]; split; [exact Hout|]; split; [exact Hiff|].
  rewrite Hiff; lia.
Qed.

(** X12. When the batch size leaves exactly one minibatch per epoch, the run
    does what the docstring of [train] says: [training_epochs] updates, and
    a cost report for each epoch from 1 to [training_epochs]. *)
Theorem train_single_batch_epochs (rows : nat) (cfg : config) (bs : Z)
  (fuel : nat) :
  batch_size cfg = Some bs ->
  0 < bs ->
  Z.of_nat rows / bs = 1 ->
  1 <= training_epochs cfg ->
  optimizer cfg = "gd"%string \/ optimizer cfg = "rmsprop"%string ->
  (Z.to_nat (training_epochs cfg - 1) < fuel)%nat ->
  exists r,
    train flat0 update fuel rows cfg = Some r
    /\ outcome r = Ok (PyInt 1)
    /\ n_iter r = training_epochs cfg
    /\ (forall e, In (PrintEpoch e) (log r) <-> 1 <= e <= training_epochs cfg).
Proof.
  intros Hbs Hpos Hn HE Hopt Hfuel.
  destruct (choose_optimizer_known _ Hopt) as (kind & line & Hk).
  assert (Hnz : bs <> 0) by lia.
  assert (Hn0 : 0 < Z.of_nat rows / bs) by lia.
  assert (Hfuel' : (Z.to_nat (Z.max 0 (training_epochs cfg - 1)
                              * (Z.of_nat rows / bs)) < fuel)%nat)
    by (rewrite Hn; lia).
  destruct (train_trace P flat0 update rows cfg bs fuel kind line
              Hbs Hnz Hn0 Hk Hfuel') as (r & Hr & Hout & Hit & _ & Hlog).
  rewrite Hn in Hit, Hlog.
  exists r; split; [exact Hr|]; split; [exact Hout|]; split; [lia|].
  intros e; rewrite Hlog; lia.
Qed.

(** X13. A run never does without an update: with [training_epochs] at most 1
    (zero and negative values included) [train] still applies one update
    before it stops, returns 1, and reports a cost only if that single step
    was a whole epoch. *)
Theorem train_runs_at_least_one_step (rows : nat) (cfg : config) (bs : Z)
  (fuel : nat) (kind : optimizer_kind) (line : event) :
  batch_size cfg = Some bs ->
  0 < bs ->
  1 <= Z.of_nat rows / bs ->
  training_epochs cfg <= 1 ->
  choose_optimizer (optimizer cfg) = Some (kind, line) ->
  exists r,
    train flat0 update (S fuel) rows cfg = Some r
    /\ outcome r = Ok (PyInt 1)
    /\ n_iter r = 1
    /\ wrt r = update kind flat0 0
    /\ (forall e, In (PrintEpoch e) (log r) <->
          e = 1 /\ Z.of_nat rows / bs = 1).
Proof.
  intros Hbs Hpos Hn HE Hk.
  assert (Hmax : Z.max 0 (training_epochs cfg - 1) = 0) by lia.
  assert (Hnz : bs <> 0) by lia.
  assert (Hn0 : 0 < Z.of_nat rows / bs) by lia.
  assert (Hfuel : (Z.to_nat (Z.max 0 (training_epochs cfg - 1)
                             * (Z.of_nat rows / bs)) < S fuel)%nat)
    by (rewrite Hmax; simpl; lia).
  destruct (train_trace P flat0 update rows cfg bs (S fuel) kind line
              Hbs Hnz Hn0 Hk Hfuel) as (r & Hr & Hout & Hit & Hw & Hlog).
  rewrite Hmax in Hit, Hlog; simpl in Hit.
  exists r; split; [exact Hr|]; split; [exact Hout|]; split; [exact Hit|].
  split; [rewrite Hw, Hit; reflexivity|].
  intros e; rewrite Hlog; nia.
Qed.

(** X14. A training split shorter than the batch size leaves zero minibatches:
    [train] announces 0 minibatches, applies one update, and the first pass
    through the loop body divides by zero.  Nothing is reported or saved. *)
Theorem train_split_shorter_than_batch (rows : nat) (cfg : config) (bs : Z)
  (fuel : nat) (kind : optimizer_kind) (line : event) :
  batch_size cfg = Some bs ->
  (0 < rows)%nat ->
  Z.of_nat rows < bs ->
  choose_optimizer (optimizer cfg) = Some (kind, line) ->
  train flat0 update (S fuel) rows cfg
  = Some (mk_run (Raise ZeroDivisionError)
                 [Print "... building the model"; PrintBatches 0 bs; line]
                 1 (update kind flat0 0)).
Proof.
  intros Hbs Hrows Hlt Hk.
  unfold train, plan_batches; rewrite Hbs.
  destruct (Z.eqb_spec bs 0) as [|_]; [lia|].
  rewrite Z.div_small by lia.
  rewrite Hk; reflexivity.
Qed.

(** X15. The outcome of [train] is fixed by its configuration, for a non-empty
    training split and a batch size that is not negative: a zero batch size
    raises [ZeroDivisionError] at once; otherwise an unknown optimizer
    returns -1; otherwise an unset batch size raises [UnboundLocalError], a
    batch size above the number of rows raises [ZeroDivisionError], and any
    other run that ends returns 1.  All but the last case, the zero batch
    size included, do end, within one pass of the loop. *)
Theorem train_outcome_by_configuration (rows : nat) (cfg : config) :
  (0 < rows)%nat ->
  (forall bs, batch_size cfg = Some bs -> 0 <= bs) ->
  (forall fuel r,
      train flat0 update fuel rows cfg = Some r ->
      outcome r
      = match batch_size cfg with
        | Some bs =>
            if bs =? 0 then Raise ZeroDivisionError
            else match choose_optimizer (optimizer cfg) with
                 | None => Ok (PyInt (-1))
                 | Some _ =>
                     if Z.of_nat rows <? bs then Raise ZeroDivisionError
                     else Ok (PyInt 1)
                 end
        | None =>
            match choose_optimizer (optimizer cfg) with
            | None => Ok (PyInt (-1))
            | Some _ => Raise UnboundLocalError
            end
        end)
  /\ (forall fuel,
        batch_size cfg = None
        \/ batch_size cfg = Some 0
        \/ choose_optimizer (optimizer cfg) = None
        \/ (exists bs, batch_size cfg = Some bs /\ Z.of_nat rows < bs) ->
        exists r, train flat0 update (S fuel) rows cfg = Some r).
Proof.
  intros Hrows Hbs.
  split.
  - intros fuel r Hrun.
    unfold train, plan_batches in Hrun.
    destruct (batch_size cfg) as [bs|].
    + specialize (Hbs bs eq_refl).
      destruct (Z.eqb_spec bs 0) as [Hz|Hnz];
        [injection Hrun as <-; reflexivity|].
      destruct (choose_optimizer (optimizer cfg)) as [[kind line]|];
        [|injection Hrun as <-; reflexivity].
      destruct (training_loop update fuel kind (Some (Z.of_nat rows / bs))
                              (training_epochs cfg) 0 flat0 _)
        as [rl|] eqn:Hloop; [|discriminate].
      destruct (training_loop_invariant P update kind _ _ _ _ _ _ _ Hloop)
        as (_ & _ & _ & _ & Hout).
      rewrite Hout in Hrun.
      destruct (Z.ltb_spec (Z.of_nat rows) bs) as [Hlt|Hge].
      * rewrite Z.div_small in Hrun by lia.
        simpl in Hrun; injection Hrun as <-; reflexivity.
      * assert (Hn : 0 < Z.of_nat rows / bs) by (apply Z.div_str_pos; lia).
        destruct (Z.eqb_spec (Z.of_nat rows / bs) 0) as [|_]; [lia|].
        injection Hrun as <-; reflexivity.
    + destruct (choose_optimizer (optimizer cfg)) as [[kind line]|];
        [|injection Hrun as <-; reflexivity].
      destruct (training_loop update fuel kind None (training_epochs cfg)
                              0 flat0 _) as [rl|] eqn:Hloop; [|discriminate].
      destruct (training_loop_invariant P update kind _ _ _ _ _ _ _ Hloop)
        as (_ & _ & _ & _ & Hout).
      rewrite Hout in Hrun; injection Hrun as <-; reflexivity.
  - intros fuel Hearly.
    unfold train, plan_batches.
    destruct (batch_size cfg) as [bs|].
    + destruct (Z.eqb_spec bs 0) as [Hz|Hnz]; [eexists; reflexivity|].
      destruct (choose_optimizer (optimizer cfg)) as [[kind line]|];
        [|eexists; reflexivity].
      destruct Hearly as [H | [H | [H | (bs' & Hb & Hlt)]]];
        try discriminate; [congruence|].
      injection Hb as <-.
      rewrite Z.div_small by lia.
      eexists; reflexivity.
    + destruct (choose_optimizer (optimizer cfg)) as [[kind line]|];
        eexists; reflexivity.
Qed.

(** X16. Whichever way [train] ends, on a non-empty training split and with a
    batch size that is not negative, the parameters are the initial ones
    with exactly [n_iter] updates applied in order, one per counter value
    from 0, and the counter is zero exactly when no optimizer was reached:
    for a zero batch size or an unknown optimizer. *)
Theorem train_parameters_follow_counter (rows : nat) (cfg : config)
  (fuel : nat) (r : run P pyval) :
  (0 < rows)%nat ->
  (forall bs, batch_size cfg = Some bs -> 0 <= bs) ->
  train flat0 update fuel rows cfg = Some r ->
  0 <= n_iter r
  /\ (n_iter r = 0 <->
      batch_size cfg = Some 0 \/ choose_optimizer (optimizer cfg) = None)
  /\ match choose_optimizer (optimizer cfg) with
     | Some (kind, _) =>
         wrt r = apply_updates update kind flat0 0 (Z.to_nat (n_iter r))
     | None => wrt r = flat0
     end.
Proof.
  intros _ _ Hrun.
  unfold train, plan_batches in Hrun.
  assert (Hearly : forall (o : result pyval) (lines : list event),
             Some (mk_run o lines 0 flat0) = Some r ->
             0 <= n_iter r /\ n_iter r = 0 /\ wrt r = flat0).
  { intros o lines H; injection H as <-; simpl; repeat split; lia. }
  assert (Hloop : forall kind ntb lines rl,
             training_loop update fuel kind ntb (training_epochs cfg)
                           0 flat0 lines = Some rl ->
             0 < n_iter rl
             /\ wrt rl = apply_updates update kind flat0 0
                                       (Z.to_nat (n_iter rl))).
  { intros kind ntb lines rl H.
    destruct (training_loop_invariant P update kind _ _ _ _ _ _ _ H)
      as (Hlt & Hw & _).
    split; [exact Hlt | rewrite Hw, Z.sub_0_r; reflexivity]. }
  destruct (batch_size cfg) as [bs|].
  - destruct (Z.eqb_spec bs 0) as [Hz|Hnz].
    + destruct (Hearly _ _ Hrun) as (H0 & Hit & Hw).
      split; [exact H0|]; split; [split; [left; subst bs|]; auto|].
      destruct (choose_optimizer (optimizer cfg)) as [[kind line]|];
        rewrite Hw, ?Hit; reflexivity.
    + destruct (choose_optimizer (optimizer cfg)) as [[kind line]|].
      * destruct (training_loop update fuel kind _ _ _ _ _) as [rl|] eqn:Hl;
          [|discriminate].
        destruct (Hloop _ _ _ _ Hl) as (Hpos & Hw).
        assert (Hr : n_iter r = n_iter rl /\ wrt r = wrt rl)
          by (destruct (outcome rl); injection Hrun as <-; split; reflexivity).
        destruct Hr as [Hit Hwr]; rewrite Hit, Hwr.
        split; [lia|]; split; [|exact Hw].
        split; [lia | intros [H | H]; [congruence | discriminate]].
      * destruct (Hearly _ _ Hrun) as (H0 & Hit & Hw).
        split; [exact H0|]; split; [split; auto | exact Hw].
  - destruct (choose_optimizer (optimizer cfg)) as [[kind line]|].
    + destruct (training_loop update fuel kind _ _ _ _ _) as [rl|] eqn:Hl;
        [|discriminate].
      destruct (Hloop _ _ _ _ Hl) as (Hpos & Hw).
      assert (Hr : n_iter r = n_iter rl /\ wrt r = wrt rl)
        by (destruct (outcome rl); injection Hrun as <-; split; reflexivity).
      destruct Hr as [Hit Hwr]; rewrite Hit, Hwr.
      split; [lia|]; split; [|exact Hw].
      split; [lia | intros [H | H]; discriminate].
    + destruct (Hearly _ _ Hrun) as (H0 & Hit & Hw).
      split; [exact H0|]; split; [split; auto | exact Hw].
Qed.

(** X17. On a non-empty training split and with a batch size that is not
    negative, the model is pickled exactly by the runs that return 1: no
    run that raises, and no run rejected for its optimizer, writes
    autoencoder.pkl. *)
Theorem train_pickles_iff_success (rows : nat) (cfg : config) (fuel : nat)
  (r : run P pyval) :
  (0 < rows)%nat ->
  (forall bs, batch_size cfg = Some bs -> 0 <= bs) ->
  train flat0 update fuel rows cfg = Some r ->
  (In PickleDump (log r) <-> outcome r = Ok (PyInt 1)).
Proof.
  intros _ _ Hrun.
  unfold train, plan_batches in Hrun.
  assert (Hnone : forall (lines : list event) (ev1 ev2 : event)
                         (rl : run P unit) kind ntb,
             training_loop update fuel kind ntb (training_epochs cfg)
               0 flat0 (([Print "... building the model"] ++ [ev1]) ++ [ev2])
             = Some rl ->
             ev1 <> PickleDump -> ev2 <> PickleDump ->
             ~ In PickleDump (log rl)).
  { intros _ ev1 ev2 rl kind ntb Hl H1 H2 Hin.
    destruct (training_loop_invariant P update kind _ _ _ _ _ _ _ Hl)
      as (_ & _ & Hlog & _).
    destruct (Hlog _ Hin) as [Hpre | [e He]]; [|discriminate He].
    simpl in Hpre; destruct Hpre as [H | [H | [H | []]]];
      [discriminate H | congruence | congruence]. }
  assert (Hfinish : forall (kind : optimizer_kind) ntb ev1 ev2,
             ev1 <> PickleDump -> ev2 <> PickleDump ->
             match training_loop update fuel kind ntb (training_epochs cfg)
                     0 flat0 (([Print "... building the model"] ++ [ev1])
                                ++ [ev2]) with
             | None => None
             | Some rl =>
                 match outcome rl with
                 | Raise e =>
                     Some (mk_run (Raise e) (log rl) (n_iter rl) (wrt rl))
                 | Ok _ =>
                     Some (mk_run (Ok (PyInt 1))
                                  (log rl ++ [PrintRanFor; PickleDump])%list
                                  (n_iter rl) (wrt rl))
                 end
             end = Some r ->
             (In PickleDump (log r) <-> outcome r = Ok (PyInt 1))).
  { intros kind ntb ev1 ev2 H1 H2 H.
    destruct (training_loop update fuel kind ntb _ _ _ _) as [rl|] eqn:Hl;
      [|discriminate].
    pose proof (Hnone [] ev1 ev2 rl kind ntb Hl H1 H2) as Hno.
    destruct (outcome rl); injection H as <-; simpl.
    - split; [reflexivity|].
      intros _; apply in_or_app; right; simpl; auto.
    - split; [intros Hin; contradiction | discriminate]. }
  destruct (batch_size cfg) as [bs|].
  - destruct (Z.eqb_spec bs 0) as [Hz|Hnz].
    + injection Hrun as <-; simpl.
      split; [intros [H | []]; discriminate H | discriminate].
    + destruct (choose_optimizer (optimizer cfg)) as [[kind line]|] eqn:Hk.
      * destruct (choose_optimizer_prints _ _ _ Hk) as [s ->].
        eapply (Hfinish kind); [ | | exact Hrun]; discriminate.
      * injection Hrun as <-; simpl.
        split; [intros [H | [H | [H | []]]]; discriminate H | discriminate].
  - destruct (choose_optimizer (optimizer cfg)) as [[kind line]|] eqn:Hk.
    + destruct (choose_optimizer_prints _ _ _ Hk) as [s ->].
      eapply (Hfinish kind); [ | | exact Hrun]; discriminate.
    + injection Hrun as <-; simpl.
      split; [intros [H | [H | [H | []]]]; discriminate H | discriminate].
Qed.

End TrainBehaviour.

Section CommandLine.
Local Open Scope Z_scope.

Variable P : Type.
Variable flat0 : P.
Variable update : optimizer_kind -> P -> Z -> P.

(** The malformed format of the unknown-target message. *)
Lemma unknown_element_format (element : string) :
  py_format "dot't know how to plot %" [element] = Raise ValueError.
Proof. reflexivity. Qed.

Lemma train_outcome_shape (fuel rows : nat) (cfg : config) (r : run P pyval) :
  train flat0 update fuel rows cfg = Some r ->
  outcome r = Ok (PyInt 1) \/ outcome r = Ok (PyInt (-1))
  \/ exists e, outcome r = Raise e.
Proof.
  unfold train.
  destruct (plan_batches rows (batch_size cfg)) as [[ntb line]|e];
    [|intros H; injection H as <-; right; right; eexists; reflexivity].
  destruct (choose_optimizer (optimizer cfg)) as [[kind line']|];
    [|intros H; injection H as <-; right; left; reflexivity].
  destruct (training_loop update fuel kind ntb _ _ _ _) as [rl|];
    [|discriminate].
  destruct (outcome rl); intros H; injection H as <-;
    [left; reflexivity | right; right; eexists; reflexivity].
Qed.

(** X18. [plot] never reaches its own error report.  Whatever the target, it
    does not return -1 and does not print its help line; when the pickle
    does not load it ends with an exception before it looks at the target,
    with nothing printed or saved; when it loads, an unknown target raises
    [ValueError]; and an image is saved only for the two known targets, each
    under its own file name. *)
Theorem plot_outcomes (pickled : bool) (element : string) :
  fst (plot pickled element) <> Ok (PyInt (-1))
  /\ ~ In (Print "either use 'reconstructions' or 'repflds'")
          (snd (plot pickled element))
  /\ (pickled = false ->
      (exists e, fst (plot pickled element) = Raise e)
      /\ snd (plot pickled element) = [])
  /\ (pickled = true ->
      element <> "reconstructions"%string -> element <> "repflds"%string ->
      plot pickled element = (Raise ValueError, []))
  /\ (forall file, In (SaveImage file) (snd (plot pickled element)) ->
        pickled = true
        /\ ((element = "reconstructions"%string
             /\ file = "autoencoderrec.png"%string)
            \/ (element = "repflds"%string
                /\ file = "autoencoderfilter.png"%string))).
Proof.
  unfold plot.
  destruct pickled; cbn [negb].
  - destruct (String.eqb_spec element "reconstructions") as [Hrec|Hrec];
      [|destruct (String.eqb_spec element "repflds") as [Hrep|Hrep]];
      rewrite ?unknown_element_format; cbn [fst snd].
    + split; [discriminate|].
      split; [intros [H | [H | []]]; discriminate H|].
      split; [discriminate|].
      split; [intros _ Hne; contradiction|].
      intros file [H | [H | []]]; [discriminate H|].
      injection H as <-; split; [reflexivity | left; split; auto].
    + split; [discriminate|].
      split; [intros [H | [H | []]]; discriminate H|].
      split; [discriminate|].
      split; [intros _ _ Hne; contradiction|].
      intros file [H | [H | []]]; [discriminate H|].
      injection H as <-; split; [reflexivity | right; split; auto].
    + split; [discriminate|].
      split; [intros []|].
      split; [discriminate|].
      split; [reflexivity|].
      intros file [].
  - cbn [fst snd].
    split; [discriminate|].
    split; [intros []|].
    split; [intros _; split; [eexists; reflexivity | reflexivity]|].
    split; [discriminate|].
    intros file [].
Qed.

(** The three ways [plot] can end. *)
Lemma plot_result_cases (pickled : bool) (element : string) :
  (pickled = true
   /\ (element = "reconstructions"%string \/ element = "repflds"%string)
   /\ fst (plot pickled element) = Ok PyNone)
  \/ (pickled = false /\ fst (plot pickled element) = Raise IOError)
  \/ (pickled = true
      /\ element <> "reconstructions"%string
      /\ element <> "repflds"%string
      /\ fst (plot pickled element) = Raise ValueError).
Proof.
  unfold plot.
  destruct pickled; cbn [negb]; [|right; left; split; reflexivity].
  destruct (String.eqb_spec element "reconstructions") as [Hrec|Hrec];
    [left; repeat split; auto|].
  destruct (String.eqb_spec element "repflds") as [Hrep|Hrep];
    [left; repeat split; auto|].
  rewrite unknown_element_format.
  right; right; repeat split; auto.
Qed.

(** X19. The only way for the program to exit with status 0 is a [plot] of one
    of the two known targets with a loadable pickle.  Every other
    invocation that ends, a completed [train] included, exits with a
    non-zero status. *)
Theorem main_exit_zero_iff (fuel rows : nat) (pickled : bool)
  (argv : list string) (res : result pyval) (lines : list event) :
  main flat0 update fuel rows pickled argv = Some (res, lines) ->
  (exit_status res = 0 <->
   pickled = true
   /\ exists element rest,
        argv = "plot"%string :: element :: rest
        /\ (element = "reconstructions"%string
            \/ element = "repflds"%string)).
Proof.
  intros Hmain.
  destruct argv as [|command rest].
  - simpl in Hmain; injection Hmain as <- <-.
    split; [discriminate | intros (_ & e & r & H & _); discriminate H].
  - unfold main in Hmain.
    destruct (String.eqb_spec command "train") as [->|Htrain].
    + destruct (train flat0 update fuel rows default_config) as [r|] eqn:Hr;
        [|discriminate].
      injection Hmain as <- <-.
      split.
      * destruct (train_outcome_shape _ _ _ _ Hr) as [-> | [-> | [e ->]]];
          discriminate.
      * intros (_ & e & r' & H & _); discriminate H.
    + destruct (String.eqb_spec command "plot") as [->|Hplot].
      * destruct rest as [|element rest].
        { injection Hmain as <- <-.
          split; [discriminate | intros (_ & e & r & H & _); discriminate H]. }
        injection Hmain as Hres.
        assert (Hfst : res = fst (plot pickled element))
          by (rewrite Hres; reflexivity).
        destruct (plot_result_cases pickled element) as [Hc | [Hc | Hc]].
        { destruct Hc as (Hp & Hel & Hval); rewrite Hfst, Hval.
          split; [|intros _; reflexivity].
          intros _; split; [exact Hp|].
          exists element, rest; split; [reflexivity | exact Hel]. }
        { destruct Hc as (Hp & Hval); rewrite Hfst, Hval.
          split; [discriminate|].
          intros (Hp' & _); congruence. }
        { destruct Hc as (Hp & Hn1 & Hn2 & Hval); rewrite Hfst, Hval.
          split; [discriminate|].
          intros (_ & e & r & H & [He | He]); injection H as <- _;
            contradiction. }
      * rewrite unknown_command_format in Hmain; injection Hmain as <- <-.
        split; [discriminate|].
        intros (_ & e & r & H & _); injection H as H _; contradiction.
Qed.

End CommandLine.

Section FurtherConcreteRuns.
Local Open Scope Z_scope.

Lemma train_reports_all_but_last_epoch_witness :
  exists r,
    train 0%nat count_update 1163 50000 default_config = Some r
    /\ outcome r = Ok (PyInt 1)
    /\ (forall e, In (PrintEpoch e) (log r) <->
          1 <= e <= training_epochs default_config - 1)
    /\ ~ In (PrintEpoch (training_epochs default_config)) (log r).
Proof.
  apply (train_reports_all_but_last_epoch nat 0%nat count_update
           50000 default_config 600 1163).
  - reflexivity.
  - lia.
  - vm_compute; discriminate.
  - vm_compute; discriminate.
  - right; reflexivity.
  - vm_compute; lia.
Defined.

Lemma train_single_batch_epochs_witness :
  exists r,
    train 0%nat count_update 3 6 (mk_config 3 (Some 6) "gd") = Some r
    /\ outcome r = Ok (PyInt 1)
    /\ n_iter r = training_epochs (mk_config 3 (Some 6) "gd")
    /\ (forall e, In (PrintEpoch e) (log r) <->
          1 <= e <= training_epochs (mk_config 3 (Some 6) "gd")).
Proof.
  apply (train_single_batch_epochs nat 0%nat count_update
           6 (mk_config 3 (Some 6) "gd") 6 3).
  - reflexivity.
  - lia.
  - reflexivity.
  - simpl; lia.
  - left; reflexivity.
  - simpl; lia.
Defined.

Lemma train_runs_at_least_one_step_witness :
  exists r,
    train 0%nat count_update 1 1200 (mk_config 0 (Some 600) "rmsprop") = Some r
    /\ outcome r = Ok (PyInt 1)
    /\ n_iter r = 1
    /\ wrt r = count_update RmsProp 0%nat 0
    /\ (forall e, In (PrintEpoch e) (log r) <->
          e = 1 /\ Z.of_nat 1200 / 600 = 1).
Proof.
  apply (train_runs_at_least_one_step nat 0%nat count_update
           1200 (mk_config 0 (Some 600) "rmsprop") 600 0 RmsProp
           (Print "... using rmsprop")).
  - reflexivity.
  - lia.
  - vm_compute; discriminate.
  - simpl; lia.
  - reflexivity.
Defined.

Lemma train_split_shorter_than_batch_witness :
  train 0%nat count_update 1 6 (mk_config 3 (Some 7) "gd")
  = Some (mk_run (Raise ZeroDivisionError)
                 [Print "... building the model"; PrintBatches 0 7;
                  Print "... using gradient descent"]
                 1 (count_update GradientDescent 0%nat 0)).
Proof.
  apply (train_split_shorter_than_batch nat 0%nat count_update
           6 (mk_config 3 (Some 7) "gd") 7 0 GradientDescent
           (Print "... using gradient descent")).
  - reflexivity.
  - lia.
  - lia.
  - reflexivity.
Defined.

Lemma train_outcome_by_configuration_witness :
  let cfg := mk_config 15 None "rmsprop" in
  (forall fuel r,
      train 0%nat count_update fuel 1200 cfg = Some r ->
      outcome r
      = match batch_size cfg with
        | Some bs =>
            if bs =? 0 then Raise ZeroDivisionError
            else match choose_optimizer (optimizer cfg) with
                 | None => Ok (PyInt (-1))
                 | Some _ =>
                     if Z.of_nat 1200 <? bs then Raise ZeroDivisionError
                     else Ok (PyInt 1)
                 end
        | None =>
            match choose_optimizer (optimizer cfg) with
            | None => Ok (PyInt (-1))
            | Some _ => Raise UnboundLocalError
            end
        end)
  /\ (forall fuel,
        batch_size cfg = None
        \/ batch_size cfg = Some 0
        \/ choose_optimizer (optimizer cfg) = None
        \/ (exists bs, batch_size cfg = Some bs /\ Z.of_nat 1200 < bs) ->
        exists r, train 0%nat count_update (S fuel) 1200 cfg = Some r).
Proof.
  intros cfg.
  apply (train_outcome_by_configuration nat 0%nat count_update 1200 cfg).
  - lia.
  - intros bs Hbs; discriminate Hbs.
Defined.

Lemma train_parameters_follow_counter_witness :
  let r :=
    mk_run (Ok (PyInt 1))
           [Print "... building the model"; PrintBatches 3 2;
            Print "... using gradient descent"; PrintEpoch 1;
            PrintRanFor; PickleDump]
           4 4%nat in
  0 <= n_iter r
  /\ (n_iter r = 0 <->
      batch_size (mk_config 2 (Some 2) "gd") = Some 0
      \/ choose_optimizer (optimizer (mk_config 2 (Some 2) "gd")) = None)
  /\ match choose_optimizer (optimizer (mk_config 2 (Some 2) "gd")) with
     | Some (kind, _) =>
         wrt r = apply_updates count_update kind 0%nat 0 (Z.to_nat (n_iter r))
     | None => wrt r = 0%nat
     end.
Proof.
  intros r.
  apply (train_parameters_follow_counter nat 0%nat count_update
           6 (mk_config 2 (Some 2) "gd") 10 r).
  - lia.
  - intros bs Hbs; injection Hbs as <-; lia.
  - vm_compute; reflexivity.
Defined.

Lemma train_pickles_iff_success_witness :
  let r :=
    mk_run (Raise UnboundLocalError)
           [Print "... building the model";
            Print "... training on the full train set";
            Print "... using gradient descent"]
           1 1%nat in
  In PickleDump (log r) <-> outcome r = Ok (PyInt 1).
Proof.
  intros r.
  apply (train_pickles_iff_success nat 0%nat count_update
           6 (mk_config 2 None "gd") 10 r).
  - lia.
  - intros bs Hbs; discriminate Hbs.
  - vm_compute; reflexivity.
Defined.

Lemma main_exit_zero_iff_witness :
  exit_status (Ok PyNone) = 0 <->
  true = true
  /\ exists element rest,
       ["plot"%string; "repflds"%string] = "plot"%string :: element :: rest
       /\ (element = "reconstructions"%string \/ element = "repflds"%string).
Proof.
  apply (main_exit_zero_iff nat 0%nat count_update 0 6 true
           ["plot"%string; "repflds"%string] (Ok PyNone)
           [Print "... plot receptive fields";
            SaveImage "autoencoderfilter.png"]).
  reflexivity.
Defined.

End FurtherConcreteRuns.
